(** * Automated blog content pipeline: the stage graph and its revision gate

    A shallow embedding of [automated_blog_content_pipeline]:
    [models.py] (the pydantic records), [config.py] (the settings the
    pipeline reads), [publisher.py] (Tistory and dry-run publishers),
    [agents.py] (the research agent; the generation agents are collaborators)
    and [pipeline.py] (the six nodes, the conditional edge and [run]).

    The pipeline state is one Python [dict] that every node mutates in place
    and hands back; it is modelled as a record of optional entries (an absent
    key is [None]) threaded through a state-and-exception monad in which the
    store survives a raised exception, as the dict does. *)

From Stdlib Require Import ZArith List String Ascii Bool Lia.
From Stdlib Require Import PrimFloat Uint63 SpecFloat FloatOps FloatAxioms.
Import ListNotations.

#[local] Open Scope string_scope.
#[local] Open Scope Z_scope.
Set Warnings "-inexact-float,-register-all,-notation-for-abbreviation".

(* ================================================================== *)
(** ** Exceptions and outcomes *)

(** The subclasses of [Exception] that the code meets.  [KeyError] carries
    the missing key, the others the text that [str(e)] yields. *)
Inductive exn : Type :=
| KeyError (key : string)
| ValidationError (msg : string)
| AttributeError (msg : string)
| RequestException (msg : string)
| OtherException (msg : string).

(** [str(e)]: a [KeyError] prints the repr of its key. *)
Definition str (e : exn) : string :=
  match e with
  | KeyError k => "'" ++ k ++ "'"
  | ValidationError m | AttributeError m | RequestException m
  | OtherException m => m
  end.

(** [isinstance(e, requests.exceptions.RequestException)] *)
Definition is_RequestException (e : exn) : bool :=
  match e with RequestException _ => true | _ => false end.

Inductive outcome (A : Type) : Type :=
| Ret (a : A)
| Raise (e : exn).
Arguments Ret {A} a.
Arguments Raise {A} e.

Definition returned {A} (o : outcome A) : bool :=
  match o with Ret _ => true | Raise _ => false end.

(* ================================================================== *)
(** ** models.py *)

Module TopicSpec.
Record t : Type := mk
  { title : string;
    description : string;
    keywords : list string;
    target_audience : string;
    tone : string }.
End TopicSpec.

(** One entry of [ResearchContext.sources]; of the document's metadata only
    the ["source"] key is ever read. *)
Module Source.
Record t : Type := mk
  { content : string;
    metadata_source : option string;
    relevance_score : float }.
End Source.

Module ResearchContext.
Record t : Type := mk
  { sources : list Source.t;
    key_facts : list string;
    references : list string;
    confidence_score : float }.

(** The constructor call [ResearchContext(...)]: pydantic enforces
    [ge=0.0, le=1.0] on [confidence_score]. *)
Definition validate (r : t) : outcome t :=
  if (PrimFloat.leb 0%float (confidence_score r)
      && PrimFloat.leb (confidence_score r) 1%float)%bool
  then Ret r
  else Raise (ValidationError "confidence_score").
End ResearchContext.

Module OutlineSection.
Record t : Type := mk
  { heading : string;
    level : Z;
    content_points : list string;
    estimated_words : Z }.
End OutlineSection.

Module BlogOutline.
Record t : Type := mk
  { title : string;
    introduction : string;
    sections : list OutlineSection.t;
    conclusion : string;
    total_estimated_words : Z }.
End BlogOutline.

Module BlogContent.
Record t : Type := mk
  { title : string;
    content : string;
    meta_description : string;
    tags : list string;
    category : string;
    word_count : Z;
    created_at : Z }.
End BlogContent.

Module QAResult.
Record t : Type := mk
  { approved : bool;
    score : float;
    issues : list string;
    suggestions : list string;
    factual_accuracy : float }.
End QAResult.

Module PublishResult.
Record t : Type := mk
  { success : bool;
    post_url : option string;
    post_id : option string;
    error_message : option string;
    published_at : option Z }.

(** [PublishResult(success=False, error_message=m)] *)
Definition failure (m : option string) : t :=
  mk false None None m None.
End PublishResult.

(* ================================================================== *)
(** ** config.py: the settings the pipeline and the publisher read *)

Record Settings : Type := mkSettings
  { tistory_api_key : option string;
    tistory_blog_name : option string;
    max_writing_iterations : Z;
    fact_confidence_threshold : float;
    enable_manual_approval : bool;
    publish_mode : string;
    auto_publish : bool }.

(** The defaults of [Settings.__init__] when no environment variable is set. *)
Definition default_settings : Settings :=
  {| tistory_api_key := None;
     tistory_blog_name := None;
     max_writing_iterations := 2;
     fact_confidence_threshold := 0.8%float;
     enable_manual_approval := false;
     publish_mode := "draft";
     auto_publish := false |}.

(* ================================================================== *)
(** ** The pipeline state

    The keys of the state dict.  The values under the artifact keys are
    [model_dump()]s of validated models, so building the model back from
    them (as in [BlogContent(state["draft_content"])] with the dict unpacked)
    fails only when the key is absent. *)

Record State : Type := mkState
  { topic : option TopicSpec.t;
    current_stage : option string;
    iteration_count : option Z;
    errors : option (list string);
    research_context : option ResearchContext.t;
    outline : option BlogOutline.t;
    draft_content : option BlogContent.t;
    qa_result : option QAResult.t;
    final_content : option BlogContent.t;
    publish_result : option PublishResult.t }.

(** The empty dict. *)
Definition empty_state : State :=
  mkState None None None None None None None None None None.

Definition set_current_stage (v : string) (s : State) : State :=
  mkState (topic s) (Some v) (iteration_count s) (errors s)
    (research_context s) (outline s) (draft_content s) (qa_result s)
    (final_content s) (publish_result s).

Definition set_iteration_count (v : Z) (s : State) : State :=
  mkState (topic s) (current_stage s) (Some v) (errors s)
    (research_context s) (outline s) (draft_content s) (qa_result s)
    (final_content s) (publish_result s).

Definition set_errors (v : list string) (s : State) : State :=
  mkState (topic s) (current_stage s) (iteration_count s) (Some v)
    (research_context s) (outline s) (draft_content s) (qa_result s)
    (final_content s) (publish_result s).

Definition set_research_context (v : ResearchContext.t) (s : State) : State :=
  mkState (topic s) (current_stage s) (iteration_count s) (errors s)
    (Some v) (outline s) (draft_content s) (qa_result s)
    (final_content s) (publish_result s).

Definition set_outline (v : BlogOutline.t) (s : State) : State :=
  mkState (topic s) (current_stage s) (iteration_count s) (errors s)
    (research_context s) (Some v) (draft_content s) (qa_result s)
    (final_content s) (publish_result s).

Definition set_draft_content (v : BlogContent.t) (s : State) : State :=
  mkState (topic s) (current_stage s) (iteration_count s) (errors s)
    (research_context s) (outline s) (Some v) (qa_result s)
    (final_content s) (publish_result s).

Definition set_qa_result (v : QAResult.t) (s : State) : State :=
  mkState (topic s) (current_stage s) (iteration_count s) (errors s)
    (research_context s) (outline s) (draft_content s) (Some v)
    (final_content s) (publish_result s).

Definition set_final_content (v : BlogContent.t) (s : State) : State :=
  mkState (topic s) (current_stage s) (iteration_count s) (errors s)
    (research_context s) (outline s) (draft_content s) (qa_result s)
    (Some v) (publish_result s).

Definition set_publish_result (v : PublishResult.t) (s : State) : State :=
  mkState (topic s) (current_stage s) (iteration_count s) (errors s)
    (research_context s) (outline s) (draft_content s) (qa_result s)
    (final_content s) (Some v).

(** [state.get("iteration_count", 0)] *)
Definition get_iteration_count (s : State) : Z :=
  match iteration_count s with Some n => n | None => 0 end.

(* ================================================================== *)
(** ** Computations over the state dict

    [M A] is a Python block run against the state: it ends by returning a
    value or by raising, and in both cases leaves the (mutated) dict. *)

Definition M (A : Type) : Type := State -> outcome A * State.

Definition ret {A} (a : A) : M A := fun s => (Ret a, s).

Definition raise {A} (e : exn) : M A := fun s => (Raise e, s).

Definition bind {A B} (m : M A) (k : A -> M B) : M B :=
  fun s =>
    match m s with
    | (Ret a, s') => k a s'
    | (Raise e, s') => (Raise e, s')
    end.

(** [try: body / except Exception as e: handler(e)] *)
Definition try_except {A} (body : M A) (handler : exn -> M A) : M A :=
  fun s =>
    match body s with
    | (Ret a, s') => (Ret a, s')
    | (Raise e, s') => handler e s'
    end.

(** A call that does not touch the state dict. *)
Definition call {A} (o : outcome A) : M A := fun s => (o, s).

Declare Scope py_scope.
Delimit Scope py_scope with py.
Notation "x <- m ;; k" := (bind m (fun x => k))
  (at level 61, m at next level, right associativity) : py_scope.
Notation "m ;; k" := (bind m (fun _ => k))
  (at level 61, right associativity) : py_scope.
#[local] Open Scope py_scope.

(** [state[key]] for a key that may be absent. *)
Definition getitem {A} (key : string) (field : State -> option A) : M A :=
  fun s =>
    match field s with
    | Some v => (Ret v, s)
    | None => (Raise (KeyError key), s)
    end.

(** [state[key] = v] *)
Definition setitem {A} (set : A -> State -> State) (v : A) : M unit :=
  fun s => (Ret tt, set v s).

(** [state["errors"].append(msg)] *)
Definition errors_append (msg : string) : M unit :=
  l <- getitem "errors" errors ;;
  setitem set_errors (l ++ [msg])%list.

(** Sequencing of calls that do not touch the state dict. *)
Definition and_then {A B} (o : outcome A) (k : A -> outcome B) : outcome B :=
  match o with
  | Ret a => k a
  | Raise e => Raise e
  end.

(* ================================================================== *)
(** ** Strings *)

Definition newline : string := String (ascii_of_nat 10) "".

(** [bool(s)] for an optional string: [None] and [""] are falsy. *)
Definition truthy (s : option string) : bool :=
  match s with
  | Some (String _ _) => true
  | _ => false
  end.

(** [a or b] *)
Definition py_or (a b : option string) : option string :=
  if truthy a then a else b.

Definition lower_ascii (c : ascii) : ascii :=
  let n := nat_of_ascii c in
  if (Nat.leb 65 n && Nat.leb n 90)%bool then ascii_of_nat (n + 32) else c.

(** [s.lower()] on ASCII text. *)
Fixpoint lower (s : string) : string :=
  match s with
  | EmptyString => EmptyString
  | String c r => String (lower_ascii c) (lower r)
  end.

(* ================================================================== *)
(** ** Parsed JSON bodies *)

Inductive json : Type :=
| JNull
| JBool (b : bool)
| JNum (n : Z)
| JStr (s : string)
| JList (l : list json)
| JDict (kv : list (string * json)).

Fixpoint assoc {A} (k : string) (kv : list (string * A)) : option A :=
  match kv with
  | [] => None
  | (k', v) :: r => if String.eqb k k' then Some v else assoc k r
  end.

(** [d.get(k, default)]: only a dict has [get]. *)
Definition json_get (d : json) (k : string) (default : json) : outcome json :=
  match d with
  | JDict kv => Ret (match assoc k kv with Some v => v | None => default end)
  | _ => Raise (AttributeError "object has no attribute 'get'")
  end.

(** [d[k]] with a string key. *)
Definition json_getitem (d : json) (k : string) : outcome json :=
  match d with
  | JDict kv =>
      match assoc k kv with
      | Some v => Ret v
      | None => Raise (KeyError k)
      end
  | _ => Raise (OtherException "indices must be integers")
  end.

(** [j == s] for a string literal [s]. *)
Definition json_eq_str (j : json) (s : string) : bool :=
  match j with
  | JStr t => String.eqb t s
  | _ => false
  end.

(** Validation of a value for a field declared [str | None]. *)
Definition as_optional_str (field : string) (j : json) : outcome (option string) :=
  match j with
  | JStr s => Ret (Some s)
  | JNull => Ret None
  | _ => Raise (ValidationError field)
  end.

(* ================================================================== *)
(** ** publisher.py *)

Record HttpRequest : Type := mkHttpRequest
  { url : string;
    data : list (string * string);
    timeout : Z }.

(** What [requests.post(...)], [raise_for_status()] and [json()] come to:
    one of them raises (a [RequestException] for connection failures,
    timeouts and HTTP error statuses), or the body parses. *)
Inductive HttpOutcome : Type :=
| HttpRaises (e : exn)
| HttpJson (body : json).

Definition join_tags (tags : list string) : string :=
  match tags with
  | [] => ""
  | _ => String.concat "," tags
  end.

Definition unwrap (s : option string) : string :=
  match s with Some v => v | None => "" end.

Module TistoryPublisher.
Record t : Type := mk
  { api_key : option string;
    blog_name : option string;
    base_url : string }.

Definition init (settings : Settings) (key name : option string) : t :=
  {| api_key := py_or key (tistory_api_key settings);
     blog_name := py_or name (tistory_blog_name settings);
     base_url := "https://www.tistory.com/apis" |}.

(** The body of the [try] in [publish], after the request. *)
Definition read_write_response (now : Z) (result : json)
  : outcome PublishResult.t :=
  and_then (json_get result "tistory" (JDict [])) (fun t =>
  and_then (json_get t "status" JNull) (fun status =>
  if json_eq_str status "200" then
    and_then (json_getitem result "tistory") (fun t1 =>
    and_then (json_getitem t1 "postId") (fun post_id =>
    and_then (json_getitem result "tistory") (fun t2 =>
    and_then (json_getitem t2 "url") (fun post_url =>
    and_then (as_optional_str "post_url" post_url) (fun u =>
    and_then (as_optional_str "post_id" post_id) (fun i =>
    Ret (PublishResult.mk true u i None (Some now))))))))
  else
    and_then (json_get result "tistory" (JDict [])) (fun t1 =>
    and_then (json_get t1 "error_message" (JStr "Unknown error"))
      (fun error_msg =>
    and_then (as_optional_str "error_message" error_msg) (fun m =>
    Ret (PublishResult.failure m)))))).

(** [publish] returns its result together with the HTTP requests it made. *)
Definition publish (http_post : HttpRequest -> HttpOutcome) (now : Z)
    (self : t) (content : BlogContent.t) (visibility : string)
  : outcome PublishResult.t * list HttpRequest :=
  if (negb (truthy (api_key self)) || negb (truthy (blog_name self)))%bool
  then
    (Ret (PublishResult.failure (Some "Tistory credentials not configured")),
     [])
  else
    let post_data :=
      [ ("access_token", unwrap (api_key self));
        ("blogName", unwrap (blog_name self));
        ("title", BlogContent.title content);
        ("content", BlogContent.content content);
        ("visibility", if String.eqb visibility "draft" then "0" else "3");
        ("category", BlogContent.category content);
        ("tag", join_tags (BlogContent.tags content)) ] in
    let request :=
      mkHttpRequest (base_url self ++ "/post/write") post_data 30 in
    let body :=
      match http_post request with
      | HttpRaises e => Raise e
      | HttpJson result => read_write_response now result
      end in
    (match body with
     | Ret r => Ret r
     | Raise e =>
         if is_RequestException e
         then Ret (PublishResult.failure (Some ("Network error: " ++ str e)))
         else Ret (PublishResult.failure (Some ("Unexpected error: " ++ str e)))
     end,
     [request]).

(** The body of the [try] in [update_post], after the request. *)
Definition read_modify_response (now : Z) (post_id : string) (result : json)
  : outcome PublishResult.t :=
  and_then (json_get result "tistory" (JDict [])) (fun t =>
  and_then (json_get t "status" JNull) (fun status =>
  if json_eq_str status "200" then
    and_then (json_getitem result "tistory") (fun t1 =>
    and_then (json_getitem t1 "url") (fun post_url =>
    and_then (as_optional_str "post_url" post_url) (fun u =>
    Ret (PublishResult.mk true u (Some post_id) None (Some now)))))
  else
    and_then (json_get result "tistory" (JDict [])) (fun t1 =>
    and_then (json_get t1 "error_message" (JStr "Unknown error"))
      (fun error_msg =>
    and_then (as_optional_str "error_message" error_msg) (fun m =>
    Ret (PublishResult.failure m)))))).

Definition update_post (http_post : HttpRequest -> HttpOutcome) (now : Z)
    (self : t) (post_id : string) (content : BlogContent.t)
  : outcome PublishResult.t * list HttpRequest :=
  if (negb (truthy (api_key self)) || negb (truthy (blog_name self)))%bool
  then
    (Ret (PublishResult.failure (Some "Tistory credentials not configured")),
     [])
  else
    let post_data :=
      [ ("access_token", unwrap (api_key self));
        ("blogName", unwrap (blog_name self));
        ("postId", post_id);
        ("title", BlogContent.title content);
        ("content", BlogContent.content content);
        ("category", BlogContent.category content);
        ("tag", join_tags (BlogContent.tags content)) ] in
    let request :=
      mkHttpRequest (base_url self ++ "/post/modify") post_data 30 in
    let body :=
      match http_post request with
      | HttpRaises e => Raise e
      | HttpJson result => read_modify_response now post_id result
      end in
    (match body with
     | Ret r => Ret r
     | Raise e => Ret (PublishResult.failure (Some (str e)))
     end,
     [request]).
End TistoryPublisher.

Module DryRunPublisher.
Definition publish (now : Z) (content : BlogContent.t) (visibility : string)
  : outcome PublishResult.t * list HttpRequest :=
  (Ret (PublishResult.mk true
          (Some ("https://example.tistory.com/dry-run-"
                 ++ substring 0 20 (BlogContent.title content)))
          (Some "dry-run-12345") None (Some now)),
   []).

Definition update_post (now : Z) (post_id : string) (content : BlogContent.t)
  : outcome PublishResult.t * list HttpRequest :=
  (Ret (PublishResult.mk true
          (Some ("https://example.tistory.com/dry-run-" ++ post_id))
          (Some post_id) None (Some now)),
   []).
End DryRunPublisher.

Inductive Publisher : Type :=
| Tistory (p : TistoryPublisher.t)
| DryRun.

Definition get_publisher (settings : Settings) (dry_run : bool) : Publisher :=
  if dry_run then DryRun
  else Tistory (TistoryPublisher.init settings None None).

Definition Publisher_publish (http_post : HttpRequest -> HttpOutcome) (now : Z)
    (p : Publisher) (content : BlogContent.t) (visibility : string)
  : outcome PublishResult.t * list HttpRequest :=
  match p with
  | Tistory self => TistoryPublisher.publish http_post now self content visibility
  | DryRun => DryRunPublisher.publish now content visibility
  end.

(* ================================================================== *)
(** ** Collaborators

    The services behind the agents: the vector store, the chat models, the
    HTTP endpoint, the terminal and the clock.  The generation agents
    ([OutlineAgent], [WriterAgent], [CriticAgent]) are taken at their method
    boundary: a call yields a validated model or raises.  The write and
    review calls are repeated on a revision pass and may answer differently
    each time, so they are indexed by the graph step that makes them. *)

Record Document : Type := mkDocument
  { page_content : string;
    metadata : option string }.

Record Collaborators : Type := mkCollaborators
  { retrieve_with_scores : string -> Z -> list (Document * float);
    extract_facts : string -> string -> string -> outcome (list string);
    generate_outline :
      TopicSpec.t -> ResearchContext.t -> outcome BlogOutline.t;
    write_content :
      nat -> BlogOutline.t -> ResearchContext.t -> TopicSpec.t ->
      outcome BlogContent.t;
    review : nat -> BlogContent.t -> ResearchContext.t -> outcome QAResult.t;
    http_post : HttpRequest -> HttpOutcome;
    input : string -> outcome string;
    now : Z }.

(* ================================================================== *)
(** ** agents.py *)

Definition float_of_len {A} (l : list A) : float :=
  PrimFloat.of_uint63 (Uint63.of_Z (Z.of_nat (List.length l))).

(** [min(1.0, x)] *)
Definition min_one (x : float) : float :=
  if PrimFloat.ltb x 1%float then x else 1%float.

Module ResearchAgent.
Definition research (C : Collaborators) (topic : TopicSpec.t)
  : outcome ResearchContext.t :=
  let query :=
    TopicSpec.title topic ++ " " ++ TopicSpec.description topic ++ " "
    ++ String.concat " " (TopicSpec.keywords topic) in
  let docs_with_scores := retrieve_with_scores C query 10 in
  match docs_with_scores with
  | [] => ResearchContext.validate (ResearchContext.mk [] [] [] 0%float)
  | _ :: _ =>
      let sources :=
        map (fun ds : Document * float =>
               Source.mk (page_content (fst ds)) (metadata (fst ds)) (snd ds))
            docs_with_scores in
      let context_text :=
        String.concat (newline ++ newline ++ "---" ++ newline ++ newline)
          (map Source.content (firstn 5 sources)) in
      let key_facts :=
        match extract_facts C (TopicSpec.title topic)
                (TopicSpec.description topic) context_text with
        | Ret facts => facts
        | Raise _ => []
        end in
      let avg_score :=
        match sources with
        | [] => 0%float
        | _ =>
            PrimFloat.div
              (fold_left PrimFloat.add (map Source.relevance_score sources)
                 0%float)
              (float_of_len sources)
        end in
      let confidence :=
        min_one
          (PrimFloat.div (PrimFloat.mul avg_score (float_of_len sources))
             5%float) in
      ResearchContext.validate
        (ResearchContext.mk sources key_facts
           (map (fun s => unwrap (Source.metadata_source s)) sources)
           confidence)
  end.
End ResearchAgent.

Module SEOAgent.
(** Returns its argument as it is. *)
Definition optimize (content : BlogContent.t) : outcome BlogContent.t :=
  Ret content.
End SEOAgent.

(* ================================================================== *)
(** ** pipeline.py *)

Inductive node : Type :=
| Research | Outline | Write | Critique | Optimize | Publish.

(** The name each node is registered under in [_build_graph]. *)
Definition node_name (n : node) : string :=
  match n with
  | Research => "research"
  | Outline => "outline"
  | Write => "write"
  | Critique => "critique"
  | Optimize => "optimize"
  | Publish => "publish"
  end.

Definition node_eqb (a b : node) : bool :=
  String.eqb (node_name a) (node_name b).

Section BlogPipeline.

Variable settings : Settings.
Variable C : Collaborators.
(** [f"{x:.2f}"] *)
Variable format_2f : float -> string.
Variable dry_run : bool.

(** [self.publisher], set in [__init__]. *)
Definition publisher : Publisher := get_publisher settings dry_run.

(** The [try] block of [_research_node]. *)
Definition _research_try (topic : TopicSpec.t) : M unit :=
  research_context <- call (ResearchAgent.research C topic) ;;
  setitem set_research_context research_context ;;
  if PrimFloat.ltb (ResearchContext.confidence_score research_context)
       (fact_confidence_threshold settings)
  then
    errors_append
      ("Research confidence below threshold: "
       ++ format_2f (ResearchContext.confidence_score research_context))
  else ret tt.

Definition _research_node : M unit :=
  topic <- getitem "topic" topic ;;
  setitem set_current_stage "research" ;;
  try_except (_research_try topic)
    (fun e => errors_append ("Research error: " ++ str e)).

(** The [try] block of [_outline_node]. *)
Definition _outline_try : M unit :=
  topic <- getitem "topic" topic ;;
  research <- getitem "research_context" research_context ;;
  outline <- call (generate_outline C topic research) ;;
  setitem set_outline outline.

Definition _outline_node : M unit :=
  setitem set_current_stage "outline" ;;
  try_except _outline_try
    (fun e => errors_append ("Outline error: " ++ str e)).

(** The [try] block of [_write_node]. *)
Definition _write_try (step : nat) : M unit :=
  topic <- getitem "topic" topic ;;
  outline <- getitem "outline" outline ;;
  research <- getitem "research_context" research_context ;;
  content <- call (write_content C step outline research topic) ;;
  setitem set_draft_content content.

Definition _write_node (step : nat) : M unit :=
  setitem set_current_stage "write" ;;
  (fun s => setitem set_iteration_count (get_iteration_count s + 1) s) ;;
  try_except (_write_try step)
    (fun e => errors_append ("Write error: " ++ str e)).

(** The [try] block of [_critique_node]. *)
Definition _critique_try (step : nat) : M unit :=
  content <- getitem "draft_content" draft_content ;;
  research <- getitem "research_context" research_context ;;
  qa_result <- call (review C step content research) ;;
  setitem set_qa_result qa_result.

Definition _critique_node (step : nat) : M unit :=
  setitem set_current_stage "critique" ;;
  try_except (_critique_try step)
    (fun e => errors_append ("Critique error: " ++ str e)).

(** The [try] block of [_optimize_node]. *)
Definition _optimize_try : M unit :=
  content <- getitem "draft_content" draft_content ;;
  optimized <- call (SEOAgent.optimize content) ;;
  setitem set_final_content optimized.

Definition _optimize_node : M unit :=
  setitem set_current_stage "optimize" ;;
  try_except _optimize_try
    (fun e =>
       errors_append ("Optimize error: " ++ str e) ;;
       draft <- getitem "draft_content" draft_content ;;
       setitem set_final_content draft).

(** The [try] block of [_publish_node]; [cancelled] stands for the early
    [return state] after a refused approval. *)
Definition _publish_try : M unit :=
  content <- getitem "final_content" final_content ;;
  cancelled <-
    (if enable_manual_approval settings then
       approval <-
         call (input C ("Approve publication of '"
                        ++ BlogContent.title content ++ "'? (yes/no): ")) ;;
       if negb (String.eqb (lower approval) "yes") then
         setitem set_publish_result
           (PublishResult.failure (Some "Cancelled by user")) ;;
         ret true
       else ret false
     else ret false) ;;
  if (cancelled : bool) then ret tt
  else
    let visibility :=
      if auto_publish settings then publish_mode settings else "draft" in
    result <-
      call (fst (Publisher_publish (http_post C) (now C) publisher
                   content visibility)) ;;
    setitem set_publish_result result.

Definition _publish_node : M unit :=
  setitem set_current_stage "publish" ;;
  try_except _publish_try
    (fun e => errors_append ("Publish error: " ++ str e)).

Definition _should_revise : M string :=
  qa <- getitem "qa_result" qa_result ;;
  iteration <- (fun s => ret (get_iteration_count s) s) ;;
  if QAResult.approved qa then ret "optimize"
  else if max_writing_iterations settings <=? iteration then ret "optimize"
  else ret "revise".

(** *** The graph of [_build_graph] *)

Definition run_node (n : node) (step : nat) : M unit :=
  match n with
  | Research => _research_node
  | Outline => _outline_node
  | Write => _write_node step
  | Critique => _critique_node step
  | Optimize => _optimize_node
  | Publish => _publish_node
  end.

(** The path map of the conditional edge after [critique]. *)
Definition path_map : list (string * node) :=
  [("revise", Write); ("optimize", Optimize)].

(** The edge leaving a node; [None] is [END]. *)
Definition next_node (n : node) : M (option node) :=
  match n with
  | Research => ret (Some Outline)
  | Outline => ret (Some Write)
  | Write => ret (Some Critique)
  | Critique =>
      route <- _should_revise ;;
      match assoc route path_map with
      | Some n' => ret (Some n')
      | None => raise (KeyError route)
      end
  | Optimize => ret (Some Publish)
  | Publish => ret None
  end.

(** One execution of the graph: what it ended with, the state dict at
    that point, and the nodes that ran, each with the state it left. *)
Record Execution : Type := mkExecution
  { ended : outcome unit;
    last_state : State;
    trace : list (node * State) }.

(** [graph.invoke] from node [n]: run the node, follow its edge, go on
    until [END] or an exception.  [fuel] bounds the number of node
    executions; [None] means it was too small.  (The graph library's own
    limit on the number of steps, which would cut a long walk short with an
    exception, is left out.) *)
Fixpoint invoke_from (fuel : nat) (step : nat) (n : node) (s : State)
  : option Execution :=
  match fuel with
  | O => None
  | S fuel' =>
      match run_node n step s with
      | (Raise e, s1) => Some (mkExecution (Raise e) s1 [(n, s1)])
      | (Ret _, s1) =>
          match next_node n s1 with
          | (Raise e, s2) => Some (mkExecution (Raise e) s2 [(n, s1)])
          | (Ret None, s2) => Some (mkExecution (Ret tt) s2 [(n, s1)])
          | (Ret (Some n'), s2) =>
              match invoke_from fuel' (S step) n' s2 with
              | None => None
              | Some x =>
                  Some (mkExecution (ended x) (last_state x)
                          ((n, s1) :: trace x))
              end
          end
      end
  end.

(** [self.graph.invoke(state)]: the entry point is [research]. *)
Definition graph_invoke (fuel : nat) (s : State) : option Execution :=
  invoke_from fuel 0 Research s.

Definition initial_state (topic : TopicSpec.t) : State :=
  {| topic := Some topic;
     current_stage := Some "initialized";
     iteration_count := Some 0;
     errors := Some [];
     research_context := None;
     outline := None;
     draft_content := None;
     qa_result := None;
     final_content := None;
     publish_result := None |}.

(** What [run] hands back: the returned dict (or the exception that
    escaped), with the graph execution behind it. *)
Record RunResult : Type := mkRunResult
  { result : outcome State;
    execution : Execution }.

(** [run].  The graph is built over [dict] and every node returns the dict
    it was given, so [initial_state], the dict the nodes mutate and
    [final_state] are one object: the [except] branch appends to the dict
    as the nodes left it. *)
Definition run (fuel : nat) (topic : TopicSpec.t) : option RunResult :=
  match graph_invoke fuel (initial_state topic) with
  | None => None
  | Some x =>
      match ended x with
      | Ret _ => Some (mkRunResult (Ret (last_state x)) x)
      | Raise e =>
          match errors_append ("Pipeline error: " ++ str e) (last_state x) with
          | (Ret _, s) => Some (mkRunResult (Ret s) x)
          | (Raise e', _) => Some (mkRunResult (Raise e') x)
          end
      end
  end.

(** The [try] block of a node; only the research node's takes the topic
    read before it. *)
Definition node_try (n : node) (step : nat) (t : TopicSpec.t) : M unit :=
  match n with
  | Research => _research_try t
  | Outline => _outline_try
  | Write => _write_try step
  | Critique => _critique_try step
  | Optimize => _optimize_try
  | Publish => _publish_try
  end.

(** The state dict when a node enters its [try] block. *)
Definition node_enter (n : node) (s : State) : State :=
  match n with
  | Write =>
      set_iteration_count (get_iteration_count s + 1)
        (set_current_stage "write" s)
  | _ => set_current_stage (node_name n) s
  end.

(** How the entry that a node's [except] branch appends begins. *)
Definition node_label (n : node) : string :=
  match n with
  | Research => "Research error: "
  | Outline => "Outline error: "
  | Write => "Write error: "
  | Critique => "Critique error: "
  | Optimize => "Optimize error: "
  | Publish => "Publish error: "
  end.

(** *** The walk as a judgement

    [walk step n s x]: started at node [n] on state [s], at step [step],
    the graph execution is [x].  [invoke_from] computes it. *)
Inductive walk : nat -> node -> State -> Execution -> Prop :=
| walk_node_raises step n s e s1 :
    run_node n step s = (Raise e, s1) ->
    walk step n s (mkExecution (Raise e) s1 [(n, s1)])
| walk_edge_raises step n s u s1 e s2 :
    run_node n step s = (Ret u, s1) ->
    next_node n s1 = (Raise e, s2) ->
    walk step n s (mkExecution (Raise e) s2 [(n, s1)])
| walk_end step n s u s1 s2 :
    run_node n step s = (Ret u, s1) ->
    next_node n s1 = (Ret None, s2) ->
    walk step n s (mkExecution (Ret tt) s2 [(n, s1)])
| walk_next step n s u s1 n' s2 x :
    run_node n step s = (Ret u, s1) ->
    next_node n s1 = (Ret (Some n'), s2) ->
    walk (S step) n' s2 x ->
    walk step n s (mkExecution (ended x) (last_state x) ((n, s1) :: trace x)).

(** [run topic] comes back with [r], given enough fuel. *)
Definition completes (topic : TopicSpec.t) (r : RunResult) : Prop :=
  exists fuel, run fuel topic = Some r.

(** The nodes of a trace, in the order they ran. *)
Definition stages (x : Execution) : list node := map fst (trace x).

(** The last node that ran. *)
Fixpoint last_stage_of (tr : list (node * State)) : option node :=
  match tr with
  | [] => None
  | (n, _) :: r =>
      match r with
      | [] => Some n
      | _ :: _ => last_stage_of r
      end
  end.

Definition last_stage (x : Execution) : option node := last_stage_of (trace x).

(** How many times a node ran. *)
Definition executions (n : node) (x : Execution) : nat :=
  List.length (filter (node_eqb n) (stages x)).

(** The iteration counter after each node of a trace. *)
Definition iteration_counts (x : Execution) : list Z :=
  map (fun p => get_iteration_count (snd p)) (trace x).

(** Revision passes the gate can still grant from [s]. *)
Definition remaining (s : State) : nat :=
  Z.to_nat (max_writing_iterations settings - get_iteration_count s).

(** Write executions still ahead when the walk stands at node [n]. *)
Definition writes_ahead (n : node) (s : State) : nat :=
  match n with
  | Research | Outline | Write => Nat.max 1 (remaining s)
  | Critique => remaining s
  | Optimize | Publish => 0
  end.

(** Node executions still ahead when the walk stands at node [n]. *)
Definition budget (n : node) (s : State) : nat :=
  match n with
  | Research => 2 * Nat.max 1 (remaining s) + 4
  | Outline => 2 * Nat.max 1 (remaining s) + 3
  | Write => 2 * Nat.max 1 (remaining s) + 2
  | Critique => 2 * remaining s + 3
  | Optimize => 2
  | Publish => 1
  end%nat.

End BlogPipeline.


(* ================================================================== *)
(** ** Sample collaborators and inputs *)

Definition sample_topic : TopicSpec.t :=
  TopicSpec.mk "X" "about X" [] "technical readers" "informative and engaging".

Definition sample_outline : BlogOutline.t :=
  BlogOutline.mk "X" "intro" [OutlineSection.mk "Why X" 1 ["point"] 200]
    "outro" 1500.

Definition sample_content : BlogContent.t :=
  BlogContent.mk "X" "# X" "all about X" [] "Tech" 2 0.

Definition rejected : QAResult.t :=
  QAResult.mk false 0.5%float ["too short"] [] 0.5%float.

Definition approved_qa : QAResult.t :=
  QAResult.mk true 1%float [] [] 1%float.

Definition sample_doc : Document := mkDocument "X is a letter" (Some "x.md").

(** One retrieved document whose score gives a research confidence of 0.5. *)
Definition sample_docs : list (Document * float) := [(sample_doc, 2.5%float)].

(** Collaborators that all answer; the vector store, the critic and the
    HTTP endpoint are left open. *)
Definition answering (docs : list (Document * float))
    (critic : nat -> outcome QAResult.t) (http : HttpOutcome) : Collaborators :=
  {| retrieve_with_scores := fun _ _ => docs;
     extract_facts := fun _ _ _ => Ret ["X is a letter"];
     generate_outline := fun _ _ => Ret sample_outline;
     write_content := fun _ _ _ _ => Ret sample_content;
     review := fun step _ _ => critic step;
     http_post := fun _ => http;
     input := fun _ => Ret "yes";
     now := 0 |}.

(** The two-decimal rendering, given at the two confidence values the
    samples produce (0.0 and 0.5). *)
Definition two_decimals (x : float) : string :=
  if PrimFloat.eqb x 0%float then "0.00" else "0.50".

Definition with_credentials (s : Settings) : Settings :=
  {| tistory_api_key := Some "key";
     tistory_blog_name := Some "blog";
     max_writing_iterations := max_writing_iterations s;
     fact_confidence_threshold := fact_confidence_threshold s;
     enable_manual_approval := enable_manual_approval s;
     publish_mode := publish_mode s;
     auto_publish := auto_publish s |}.

Definition with_max_writing_iterations (n : Z) (s : Settings) : Settings :=
  {| tistory_api_key := tistory_api_key s;
     tistory_blog_name := tistory_blog_name s;
     max_writing_iterations := n;
     fact_confidence_threshold := fact_confidence_threshold s;
     enable_manual_approval := enable_manual_approval s;
     publish_mode := publish_mode s;
     auto_publish := auto_publish s |}.

(** The cap set below zero, as [int(os.getenv(...))] accepts it. *)
Definition negative_cap : Settings :=
  with_max_writing_iterations (-1) default_settings.

Definition always (qa : QAResult.t) : nat -> outcome QAResult.t :=
  fun _ => Ret qa.

Definition failing_critic : nat -> outcome QAResult.t :=
  fun _ => Raise (OtherException "model timed out").

Definition connection_refused : HttpOutcome :=
  HttpRaises (RequestException "connection refused").

(** An error answer of the API carrying [m] as its message. *)
Definition api_error_body (m : json) : json :=
  JDict [("tistory", JDict [("status", JStr "500"); ("error_message", m)])].

Definition sample_research : ResearchContext.t :=
  ResearchContext.mk [] [] [] 0%float.

(** The state a run is in once the draft exists: [qa] is what is stored
    under ["qa_result"], [n] the iteration counter. *)
Definition drafted (stage : string) (qa : option QAResult.t) (n : Z) : State :=
  {| topic := Some sample_topic;
     current_stage := Some stage;
     iteration_count := Some n;
     errors := Some [];
     research_context := Some sample_research;
     outline := Some sample_outline;
     draft_content := Some sample_content;
     qa_result := qa;
     final_content := None;
     publish_result := None |}.

(** The state a run is in when the publish node starts. *)
Definition optimized : State :=
  set_final_content sample_content (drafted "optimize" (Some approved_qa) 1).

(** The message the API put in its error answer, as [publish] reads it. *)
Definition api_error_message (body : json) : outcome json :=
  and_then (json_get body "tistory" (JDict [])) (fun t =>
  json_get t "error_message" (JStr "Unknown error")).

(** The visibility the publish node asks for. *)
Definition visibility_of (settings : Settings) : string :=
  if auto_publish settings then publish_mode settings else "draft".

(** The question the publish node puts to the terminal. *)
Definition approval_prompt (content : BlogContent.t) : string :=
  "Approve publication of '" ++ BlogContent.title content ++ "'? (yes/no): ".

(** Settings with Tistory credentials, and collaborators whose API answers
    with an error that has an empty message. *)
Definition configured : Settings := with_credentials default_settings.

Definition silent_api_error : Collaborators :=
  answering sample_docs (always approved_qa) (HttpJson (api_error_body (JStr ""))).

Definition unreachable_api : Collaborators :=
  answering sample_docs (always approved_qa) connection_refused.

(** A list extends another when it only adds entries at the end. *)
Definition extends {A} (l' l : list A) : Prop := exists more, l' = (l ++ more)%list.

(** [nondecreasing from l]: starting at [from], the values never go down. *)
Fixpoint nondecreasing (from : Z) (l : list Z) : Prop :=
  match l with
  | [] => True
  | x :: r => from <= x /\ nondecreasing x r
  end.

(* ================================================================== *)
(** ** rag.py: retrieval *)

Module RAGSystem.
(** The vector store behind the RAG system; its searches may raise. *)
Record VectorStore : Type := mkVectorStore
  { similarity_search : string -> Z -> outcome (list Document);
    similarity_search_with_score :
      string -> Z -> outcome (list (Document * float)) }.

(** [self.vector_store] is [None] until a store is built or loaded. *)
Record t : Type := mk
  { vector_store : option VectorStore }.

Definition retrieve (self : t) (query : string) (k : Z) : list Document :=
  match vector_store self with
  | None => []
  | Some store =>
      match similarity_search store query k with
      | Ret docs => docs
      | Raise _ => []
      end
  end.

Definition retrieve_with_scores (self : t) (query : string) (k : Z)
  : list (Document * float) :=
  match vector_store self with
  | None => []
  | Some store =>
      match similarity_search_with_score store query k with
      | Ret docs_with_scores => docs_with_scores
      | Raise _ => []
      end
  end.
End RAGSystem.

(** The collaborators of a pipeline built over the RAG system [rag], as
    [ResearchAgent(rag_system)] wires it. *)
Definition with_rag (rag : RAGSystem.t) (C : Collaborators) : Collaborators :=
  {| retrieve_with_scores := RAGSystem.retrieve_with_scores rag;
     extract_facts := extract_facts C;
     generate_outline := generate_outline C;
     write_content := write_content C;
     review := review C;
     http_post := http_post C;
     input := input C;
     now := now C |}.

(** The query the research agent sends to the retriever. *)
Definition research_query (topic : TopicSpec.t) : string :=
  TopicSpec.title topic ++ " " ++ TopicSpec.description topic ++ " "
  ++ String.concat " " (TopicSpec.keywords topic).

(** The confidence the research agent derives from the retrieved scores:
    their average, times their number, over five, capped at one. *)
Definition confidence_of (scores : list float) : float :=
  min_one
    (PrimFloat.div
       (PrimFloat.mul
          (PrimFloat.div (fold_left PrimFloat.add scores 0%float)
             (float_of_len scores))
          (float_of_len scores))
       5%float).

(* ================================================================== *)
(** ** langgraph-youtube-pipeline/nodes.py

    The video state and the updates the nodes return are dicts; their
    values are written with the constructors of [json]. *)

Module VideoPipeline.
Definition VideoState : Type := list (string * json).

(** [bool(v)] *)
Definition truth (v : json) : bool :=
  match v with
  | JNull => false
  | JBool b => b
  | JNum n => negb (n =? 0)
  | JStr s => negb (String.eqb s "")
  | JList l => match l with [] => false | _ :: _ => true end
  | JDict kv => match kv with [] => false | _ :: _ => true end
  end.

(** [needle in hay] for two strings. *)
Fixpoint contains (needle hay : string) : bool :=
  (prefix needle hay
   || match hay with
      | EmptyString => false
      | String _ rest => contains needle rest
      end)%bool.

(** [v.lower()]: only a string has it. *)
Definition lower_of (v : json) : outcome string :=
  match v with
  | JStr s => Ret (lower s)
  | _ => Raise (AttributeError "object has no attribute 'lower'")
  end.

Definition topic_planner (state : VideoState) : VideoState :=
  let topic :=
    match assoc "topic" state with
    | Some v => if truth v then v else JStr "Default AI Topic"
    | None => JStr "Default AI Topic"
    end in
  [("topic", topic); ("error", JNull)].

Definition content_type_router (state : VideoState) : outcome VideoState :=
  and_then
    (lower_of (match assoc "topic" state with
               | Some v => v
               | None => JStr ""
               end))
    (fun topic =>
       let c_type :=
         if contains "both" topic then "both"
         else if existsb (fun keyword => contains keyword topic)
                   ["trend"; "promo"; "short"]
         then "short"
         else "long" in
       Ret [("content_type", JStr c_type)]).
End VideoPipeline.

(** More samples: manual approval switched on, a terminal that answers
    [answer], a RAG system whose store was never built, and video states. *)
Definition with_manual_approval (s : Settings) : Settings :=
  {| tistory_api_key := tistory_api_key s;
     tistory_blog_name := tistory_blog_name s;
     max_writing_iterations := max_writing_iterations s;
     fact_confidence_threshold := fact_confidence_threshold s;
     enable_manual_approval := true;
     publish_mode := publish_mode s;
     auto_publish := auto_publish s |}.

Definition answering_terminal (answer : outcome string) (C : Collaborators)
  : Collaborators :=
  {| retrieve_with_scores := retrieve_with_scores C;
     extract_facts := extract_facts C;
     generate_outline := generate_outline C;
     write_content := write_content C;
     review := review C;
     http_post := http_post C;
     input := fun _ => answer;
     now := now C |}.

Definition unbuilt_rag : RAGSystem.t := RAGSystem.mk None.

Definition trends_state : VideoPipeline.VideoState :=
  [("topic", JStr "AI Trends 2024 (Both)"); ("retry_count", JNum 0)].

Definition untitled_state : VideoPipeline.VideoState :=
  [("topic", JStr ""); ("retry_count", JNum 0)].

(* ================================================================== *)
(** * Properties *)

#[local] Arguments String.append : simpl never.
#[local] Arguments Nat.max : simpl never.

Ltac case_step :=
  match goal with
  | |- context [match ?x with _ => _ end] =>
      lazymatch x with
      | context [match _ with _ => _ end] => fail
      | _ => destruct x eqn:?
      end
  | H : context [match ?x with _ => _ end] |- _ =>
      lazymatch x with
      | context [match _ with _ => _ end] => fail
      | _ => destruct x eqn:?
      end
  end.

Ltac unfold_py :=
  unfold bind, try_except, errors_append, getitem, setitem, call, ret, raise,
    bind in *.

Ltac unfold_nodes_only :=
  unfold run_node, _research_node, _outline_node, _write_node, _critique_node,
    _optimize_node, _publish_node in *.

Ltac unfold_nodes :=
  unfold run_node, node_try, node_enter, _research_node, _outline_node,
    _write_node, _critique_node, _optimize_node, _publish_node,
    _research_try, _outline_try, _write_try, _critique_try, _optimize_try,
    _publish_try, next_node, _should_revise in *.

(** Two readings of one key agree. *)
Ltac same_key :=
  repeat match goal with
         | H : Some _ = Some _ |- _ => inversion H; clear H; subst
         | H : Some _ = None |- _ => discriminate H
         | H : None = Some _ |- _ => discriminate H
         | H1 : ?k = Some _, H2 : ?k = Some _ |- _ =>
             rewrite H1 in H2; inversion H2; clear H2; subst
         | H1 : ?k = Some _, H2 : ?k = None |- _ =>
             rewrite H1 in H2; discriminate H2
         end.

Ltac run_py :=
  unfold_nodes; unfold_py; cbn in *;
  repeat (case_step; cbn in *; try discriminate);
  repeat match goal with
         | H : (_, _) = (_, _) |- _ => inversion H; clear H; subst; cbn in *
         end.

Lemma extends_refl {A} (l : list A) : extends l l.
Proof. exists []. now rewrite app_nil_r. Qed.

Lemma extends_snoc {A} (l : list A) (x : A) : extends (l ++ [x])%list l.
Proof. now exists [x]. Qed.

Lemma extends_trans {A} (a b c : list A) :
  extends a b -> extends b c -> extends a c.
Proof.
  intros [m1 ->] [m2 ->]. exists (m2 ++ m1)%list. now rewrite app_assoc.
Qed.

Create HintDb py.
#[local] Hint Resolve extends_refl extends_snoc : py.

Ltac solve_extends :=
  first [ apply extends_refl
        | rewrite <- ?app_assoc; eexists; reflexivity ].

(** With nothing retrieved the research agent answers with confidence 0.0
    and no facts, sources or references. *)
Lemma research_without_documents (C : Collaborators) (topic : TopicSpec.t) :
  (forall query k, retrieve_with_scores C query k = []) ->
  ResearchAgent.research C topic = Ret (ResearchContext.mk [] [] [] 0%float).
Proof.
  intros H. unfold ResearchAgent.research. rewrite H. reflexivity.
Qed.

Section Walks.

Variable settings : Settings.
Variable C : Collaborators.
Variable format_2f : float -> string.
Variable dry_run : bool.

Notation run_node := (run_node settings C format_2f dry_run).
Notation next_node := (next_node settings).
Notation walk := (walk settings C format_2f dry_run).
Notation invoke_from := (invoke_from settings C format_2f dry_run).

(** No node touches the topic. *)
Lemma run_node_topic n step s o s' :
  run_node n step s = (o, s') -> topic s' = topic s.
Proof. destruct n; intros H; run_py; congruence. Qed.

(** Only [write] moves the iteration counter, and by one. *)
Lemma run_node_iteration n step s o s' :
  run_node n step s = (o, s') ->
  get_iteration_count s' =
  get_iteration_count s + (if node_eqb n Write then 1 else 0).
Proof.
  destruct n; intros H; run_py; unfold get_iteration_count; cbn;
    try rewrite Z.add_0_r; try reflexivity.
Qed.

(** A node only appends to the error list, and never drops the key. *)
Lemma run_node_errors n step s o s' l :
  run_node n step s = (o, s') ->
  errors s = Some l ->
  exists l', errors s' = Some l' /\ extends l' l.
Proof.
  destruct n; intros H E; run_py; same_key;
    (eexists; split; [first [reflexivity | eassumption] | solve_extends]).
Qed.

(** Every node but [research] records its name whatever happens next;
    [research] does once the topic has been read. *)
Lemma run_node_stage n step s o s' :
  n <> Research \/ topic s <> None ->
  run_node n step s = (o, s') ->
  current_stage s' = Some (node_name n).
Proof.
  destruct n; intros G H; run_py; try reflexivity;
    destruct G; congruence.
Qed.

(** A [try] block that raises is answered by the node's [except] branch:
    the entry with the node's label and the text of the exception is
    appended, and the node returns.  (The optimize node goes on to copy the
    draft, so it returns only if there is one.) *)
Lemma run_node_failure n step s t e s1 l :
  topic s = Some t ->
  node_try settings C format_2f dry_run n step t (node_enter n s)
  = (Raise e, s1) ->
  errors s1 = Some l ->
  errors (snd (run_node n step s))
  = Some (l ++ [(node_label n ++ str e)%string])%list /\
  (n <> Optimize -> fst (run_node n step s) = Ret tt).
Proof.
  intros Ht H El.
  destruct (run_node n step s) as [o s'] eqn:R. cbn [fst snd].
  destruct n;
    unfold_nodes_only; unfold node_try, node_enter, node_name, node_label in *;
    unfold bind, setitem, try_except in R; cbv beta iota in R.
  1: unfold getitem at 1 in R; rewrite Ht in R; cbv beta iota in R.
  3: change (get_iteration_count (set_current_stage "write" s))
       with (get_iteration_count s) in R.
  all: rewrite H in R; unfold errors_append, bind, getitem, setitem in R;
    rewrite El in R; cbn in R.
  5: destruct (draft_content s1); cbn in R.
  all: inversion R; subst; split; [reflexivity | congruence].
Qed.

(** Following an edge leaves the state as it is. *)
Lemma next_node_state n s o s' : next_node n s = (o, s') -> s' = s.
Proof. destruct n; intros H; run_py; reflexivity. Qed.

(** Where each edge leads; the conditional edge goes back to [write] only
    below the iteration cap. *)
Lemma next_node_cases n s n' s' :
  next_node n s = (Ret (Some n'), s') ->
  match n with
  | Research => n' = Outline
  | Outline => n' = Write
  | Write => n' = Critique
  | Critique =>
      (n' = Write /\ get_iteration_count s < max_writing_iterations settings)
      \/ n' = Optimize
  | Optimize => n' = Publish
  | Publish => False
  end.
Proof.
  destruct n; intros H; run_py; auto.
  left; split; [reflexivity | now apply Z.leb_gt].
Qed.

Lemma invoke_from_walk fuel : forall step n s x,
  invoke_from fuel step n s = Some x -> walk step n s x.
Proof.
  induction fuel as [|fuel IH]; intros step n s x H; cbn in H; [discriminate|].
  destruct (run_node n step s) as [[u|e] s1] eqn:Hn.
  - destruct (next_node n s1) as [[[n'|]|e] s2] eqn:He.
    + destruct (invoke_from fuel (S step) n' s2) as [y|] eqn:Hy;
        [|discriminate].
      inversion H; subst. eapply walk_next; eauto.
    + inversion H; subst. eapply walk_end; eauto.
    + inversion H; subst. eapply walk_edge_raises; eauto.
  - inversion H; subst. now apply walk_node_raises.
Qed.

(** The walk is a function of where it starts. *)
Lemma walk_deterministic step n s x :
  walk step n s x -> forall y, walk step n s y -> y = x.
Proof.
  induction 1; intros y Hy; inversion Hy; subst;
    repeat match goal with
           | H1 : ?a = _, H2 : ?a = _ |- _ =>
               rewrite H1 in H2; inversion H2; clear H2; subst
           end; try reflexivity.
  match goal with
  | Hw : walk _ _ _ ?z |- _ => now rewrite (IHwalk _ Hw)
  end.
Qed.

(** [budget] node executions are enough from any node and state: the gate
    stops granting revisions once the counter reaches the cap. *)
Lemma invoke_from_enough fuel : forall step n s,
  (budget settings n s <= fuel)%nat ->
  exists x, invoke_from fuel step n s = Some x.
Proof.
  induction fuel as [|fuel IH]; intros step n s B.
  - destruct n; cbn in B; lia.
  - cbn. destruct (run_node n step s) as [[u|e] s1] eqn:Hn; [|eauto].
    destruct (next_node n s1) as [[[n'|]|e] s2] eqn:He; eauto.
    pose proof (next_node_state _ _ _ _ He) as ->.
    pose proof (next_node_cases _ _ _ _ He) as Hc.
    pose proof (run_node_iteration _ _ _ _ _ Hn) as Hi.
    destruct (IH (S step) n' s1) as [y Hy]; [|rewrite Hy; eauto].
    unfold budget, remaining in *.
    destruct n; cbn in Hi, Hc;
      repeat match goal with
             | H : _ \/ _ |- _ => destruct H
             | H : _ /\ _ |- _ => destruct H
             end; subst; try contradiction; lia.
Qed.

(** The write node runs at most [writes_ahead] times from any point of the
    walk. *)
Lemma walk_writes step n s x :
  walk step n s x ->
  (executions Write x <= writes_ahead settings n s)%nat.
Proof.
  induction 1 as [step n s e s1 Hn | step n s u s1 e s2 Hn He
                 | step n s u s1 s2 Hn He
                 | step n s u s1 n' s2 x Hn He Hw IH].
  1-3: unfold executions, stages; destruct n; cbn; lia.
  pose proof (next_node_state _ _ _ _ He) as ->.
  pose proof (next_node_cases _ _ _ _ He) as Hc.
  pose proof (run_node_iteration _ _ _ _ _ Hn) as Hi.
  unfold executions, stages, writes_ahead, remaining in *.
  destruct n; cbn in Hi, Hc |- *;
    repeat match goal with
           | H : _ \/ _ |- _ => destruct H
           | H : _ /\ _ |- _ => destruct H
           end; subst; try contradiction; cbn in *; lia.
Qed.

(** Along a walk the counter never goes down, and it ends at the start
    value plus the number of write executions. *)
Lemma walk_counts step n s x :
  walk step n s x ->
  nondecreasing (get_iteration_count s) (iteration_counts x) /\
  get_iteration_count (last_state x)
  = get_iteration_count s + Z.of_nat (executions Write x).
Proof.
  induction 1 as [step n s e s1 Hn | step n s u s1 e s2 Hn He
                 | step n s u s1 s2 Hn He
                 | step n s u s1 n' s2 x Hn He Hw IH];
    pose proof (run_node_iteration _ _ _ _ _ Hn) as Hi;
    try (pose proof (next_node_state _ _ _ _ He) as ->).
  1-3: unfold iteration_counts, executions, stages; destruct n; cbn in *; lia.
  destruct IH as [IHs IHl].
  unfold iteration_counts, executions, stages in *.
  destruct n; cbn in *; (split; [split|]); try assumption; lia.
Qed.

(** Along a walk the error list only grows: the list at the end extends the
    list every node left, and the list the walk started with. *)
Lemma walk_errors step n s x :
  walk step n s x ->
  forall l, errors s = Some l ->
  exists lf,
    errors (last_state x) = Some lf /\ extends lf l /\
    (forall m t, In (m, t) (trace x) ->
                 exists lt, errors t = Some lt /\ extends lf lt).
Proof.
  induction 1 as [step n s e s1 Hn | step n s u s1 e s2 Hn He
                 | step n s u s1 s2 Hn He
                 | step n s u s1 n' s2 x Hn He Hw IH];
    intros l El;
    destruct (run_node_errors _ _ _ _ _ _ Hn El) as [l1 [E1 X1]];
    try (pose proof (next_node_state _ _ _ _ He) as ->).
  1-3: exists l1; cbn; repeat split; auto;
       intros m t [Heq|[]]; inversion Heq; subst; eauto with py.
  destruct (IH _ E1) as [lf [Ef [Xf Hin]]].
  exists lf; cbn; repeat split; auto.
  - eapply extends_trans; eauto.
  - intros m t [Heq|Hi]; [inversion Heq; subst; eauto | eauto].
Qed.

(** A walk that starts with the topic in place ends with [current_stage]
    naming the last node that ran. *)
Lemma walk_stage step n s x :
  walk step n s x ->
  topic s <> None ->
  exists m, last_stage x = Some m /\
            current_stage (last_state x) = Some (node_name m).
Proof.
  induction 1 as [step n s e s1 Hn | step n s u s1 e s2 Hn He
                 | step n s u s1 s2 Hn He
                 | step n s u s1 n' s2 x Hn He Hw IH];
    intros T;
    pose proof (run_node_stage n _ _ _ _ (or_intror T) Hn) as St;
    try (pose proof (next_node_state _ _ _ _ He) as ->).
  1-3: exists n; split; [reflexivity | exact St].
  destruct IH as [m [L S']].
  - rewrite (run_node_topic _ _ _ _ _ Hn). exact T.
  - exists m. split; [|exact S'].
    unfold last_stage in *; cbn.
    destruct (trace x); [discriminate | exact L].
Qed.

(** The walk always ends: some execution is reached from any start. *)
Lemma walk_exists step n s : exists x, walk step n s x.
Proof.
  destruct (invoke_from_enough (budget settings n s) step n s (le_n _))
    as [x Hx].
  exists x. eapply invoke_from_walk; eauto.
Qed.

(** What [run] returns in terms of the walk behind it. *)
Lemma run_walk fuel topic r :
  run settings C format_2f dry_run fuel topic = Some r ->
  walk 0 Research (initial_state topic) (execution r) /\
  match ended (execution r) with
  | Ret _ => result r = Ret (last_state (execution r))
  | Raise e =>
      match errors_append ("Pipeline error: " ++ str e)
              (last_state (execution r)) with
      | (Ret _, s) => result r = Ret s
      | (Raise e', _) => result r = Raise e'
      end
  end.
Proof.
  unfold run, graph_invoke. intros H.
  destruct (invoke_from fuel 0 Research (initial_state topic)) as [x|] eqn:Hx;
    [|discriminate].
  apply invoke_from_walk in Hx.
  destruct (ended x) eqn:Hend.
  - inversion H; subst; cbn. rewrite Hend. auto.
  - destruct (errors_append _ (last_state x)) as [[u|e'] s'] eqn:Ha;
      inversion H; subst; cbn; rewrite Hend, Ha; auto.
Qed.

(** [run] comes back for every topic. *)
Lemma completes_exists topic :
  exists r, completes settings C format_2f dry_run topic r.
Proof.
  destruct (invoke_from_enough (budget settings Research (initial_state topic))
              0 Research (initial_state topic) (le_n _)) as [x Hx].
  unfold completes, run, graph_invoke.
  destruct (ended x) eqn:Hend.
  - eexists. eexists. rewrite Hx, Hend. reflexivity.
  - destruct (errors_append ("Pipeline error: " ++ str e) (last_state x))
      as [[u|e'] s'] eqn:Ha;
      eexists; eexists; rewrite Hx, Hend, Ha; reflexivity.
Qed.

(** The amount of fuel does not show in what [run] returns. *)
Lemma completes_unique topic r r' :
  completes settings C format_2f dry_run topic r ->
  completes settings C format_2f dry_run topic r' -> r' = r.
Proof.
  intros [f H] [f' H'].
  destruct (run_walk _ _ _ H) as [W R], (run_walk _ _ _ H') as [W' R'].
  pose proof (walk_deterministic _ _ _ _ W _ W') as E.
  destruct r as [res x], r' as [res' x']; cbn in *. subst x'.
  f_equal.
  destruct (ended x); [congruence|].
  destruct (errors_append _ (last_state x)) as [[u|e'] s']; congruence.
Qed.

(** *** When the run reaches the publish node *)

(** In a run a node raises only in two ways: the research node without a
    topic, the optimize node without a draft. *)
Lemma run_node_returns n step s o s' :
  run_node n step s = (o, s') ->
  n <> Research \/ topic s <> None ->
  n <> Optimize \/ draft_content s <> None ->
  errors s <> None ->
  o = Ret tt.
Proof.
  destruct n; intros H G1 G2 G3; run_py; try reflexivity;
    try (destruct G1; congruence); try (destruct G2; congruence);
    try congruence;
    match goal with u : unit |- _ => now destruct u end.
Qed.

(** Keys that no node removes. *)
Lemma run_node_keeps n step s o s' :
  run_node n step s = (o, s') ->
  (draft_content s <> None -> draft_content s' <> None) /\
  (qa_result s <> None -> qa_result s' <> None) /\
  (errors s <> None -> errors s' <> None) /\
  (n <> Research -> research_context s' = research_context s).
Proof.
  destruct n; intros H; run_py; repeat split; try congruence; try discriminate.
Qed.

(** With a QA result stored the conditional edge answers. *)
Lemma next_node_answers n s :
  qa_result s <> None -> exists m, next_node n s = (Ret m, s).
Proof.
  destruct n; intros H; unfold_nodes; unfold_py; cbn; eauto.
  destruct (qa_result s); [|congruence]. cbn.
  repeat (case_step; cbn); eauto.
Qed.

(** Only the publish node leads to [END]. *)
Lemma next_node_end n s s' : next_node n s = (Ret None, s') -> n = Publish.
Proof. destruct n; intros H; run_py; reflexivity. Qed.

(** Once a draft and a QA result are stored, the walk from any node of the
    loop or of the tail ends at [END], after the publish node. *)
Lemma walk_reaches_publish step n s x :
  walk step n s x ->
  n <> Research -> n <> Outline ->
  errors s <> None -> draft_content s <> None -> qa_result s <> None ->
  ended x = Ret tt /\ last_stage x = Some Publish /\
  research_context (last_state x) = research_context s.
Proof.
  induction 1 as [step n s e s1 Hn | step n s u s1 e s2 Hn He
                 | step n s u s1 s2 Hn He
                 | step n s u s1 n' s2 x Hn He Hw IH];
    intros N1 N2 E D Q;
    pose proof (run_node_keeps _ _ _ _ _ Hn) as [KD [KQ [KE KR]]];
    try (pose proof (next_node_state _ _ _ _ He) as ->).
  - pose proof (run_node_returns _ _ _ _ _ Hn (or_introl N1) (or_intror D) E).
    discriminate.
  - destruct (next_node_answers n s1 (KQ Q)) as [m Hm]. congruence.
  - pose proof (next_node_end _ _ _ He) as ->. cbn. repeat split; auto.
  - pose proof (next_node_cases _ _ _ _ He) as Hc.
    destruct IH as [IE [IL IR]]; auto.
    + destruct n; cbn in Hc; try contradiction; subst; try discriminate.
      destruct Hc as [[-> _]| ->]; discriminate.
    + destruct n; cbn in Hc; try contradiction; subst; try discriminate.
      destruct Hc as [[-> _]| ->]; discriminate.
    + cbn. repeat split; auto.
      * unfold last_stage in *; cbn. destruct (trace x); [discriminate|auto].
      * rewrite IR. auto.
Qed.

(** The walk moves on from a node that returned and whose edge leads on. *)
Lemma walk_moves_on step n s x s1 n' :
  run_node n step s = (Ret tt, s1) ->
  next_node n s1 = (Ret (Some n'), s1) ->
  walk step n s x ->
  exists y,
    walk (S step) n' s1 y /\ ended x = ended y /\
    last_state x = last_state y /\ trace x = (n, s1) :: trace y.
Proof.
  intros Hn He W. inversion W; subst;
    repeat match goal with
           | H1 : ?a = _, H2 : ?a = _ |- _ =>
               rewrite H1 in H2; inversion H2; clear H2; subst
           end.
  match goal with
  | Hw : walk (S step) _ _ ?y |- _ => exists y; repeat split; auto
  end.
Qed.

(** [run] always returns a dict: the graph's final state, or, when the
    graph raised, the state the nodes left with the pipeline error appended. *)
Lemma run_returns topic r :
  completes settings C format_2f dry_run topic r ->
  exists final l,
    result r = Ret final /\
    errors (last_state (execution r)) = Some l /\
    match ended (execution r) with
    | Ret _ => final = last_state (execution r)
    | Raise e =>
        final = set_errors (l ++ [("Pipeline error: " ++ str e)%string])%list
                  (last_state (execution r))
    end.
Proof.
  intros [fuel H]. destruct (run_walk _ _ _ H) as [W R].
  destruct (walk_errors _ _ _ _ W [] eq_refl) as [lf [Ef _]].
  destruct (ended (execution r)) eqn:Hend.
  - exists (last_state (execution r)), lf. auto.
  - unfold errors_append, bind, getitem, setitem in R. rewrite Ef in R.
    eexists. exists lf. repeat split; eauto.
Qed.

(** With nothing retrieved, and an outline agent, a writer and a critic
    that answer on the first pass, the run goes through every stage and
    ends after the publish node, with the empty research context in the
    returned state. *)
Lemma run_reaches_publish topic :
  (forall query k, retrieve_with_scores C query k = []) ->
  (forall t rc, exists o, generate_outline C t rc = Ret o) ->
  (forall o rc t, exists c, write_content C 2 o rc t = Ret c) ->
  (forall c rc, exists q, review C 3 c rc = Ret q) ->
  exists r final,
    completes settings C format_2f dry_run topic r /\
    result r = Ret final /\
    ended (execution r) = Ret tt /\
    last_stage (execution r) = Some Publish /\
    research_context final = Some (ResearchContext.mk [] [] [] 0%float).
Proof.
  intros Hret Hout Hwr Hrev.
  destruct (completes_exists topic) as [r Hr].
  destruct (run_returns _ _ Hr) as [final [l [Hres [El Hfin]]]].
  exists r, final. split; [exact Hr|]. split; [exact Hres|].
  destruct Hr as [fuel Hrun]. apply run_walk in Hrun. destruct Hrun as [W _].
  set (rc := ResearchContext.mk [] [] [] 0%float) in *.
  (* research *)
  assert (exists l1,
             run_node Research 0 (initial_state topic)
             = (Ret tt, mkState (Some topic) (Some "research") (Some 0)
                          (Some l1) (Some rc) None None None None None))
    as [l1 R1].
  { unfold_nodes. unfold_py. cbn.
    rewrite (research_without_documents C topic Hret). cbn.
    case_step; cbn; eexists; reflexivity. }
  destruct (walk_moves_on _ _ _ _ _ _ R1 eq_refl W) as [y1 [W1 [E1 [L1 T1]]]].
  (* outline *)
  destruct (Hout topic rc) as [o Ho].
  assert (run_node Outline 1
            (mkState (Some topic) (Some "research") (Some 0) (Some l1)
               (Some rc) None None None None None)
          = (Ret tt, mkState (Some topic) (Some "outline") (Some 0) (Some l1)
                       (Some rc) (Some o) None None None None)) as R2.
  { unfold_nodes. unfold_py. cbn. rewrite Ho. reflexivity. }
  destruct (walk_moves_on _ _ _ _ _ _ R2 eq_refl W1) as [y2 [W2 [E2 [L2 T2]]]].
  (* write *)
  destruct (Hwr o rc topic) as [c Hc].
  assert (run_node Write 2
            (mkState (Some topic) (Some "outline") (Some 0) (Some l1)
               (Some rc) (Some o) None None None None)
          = (Ret tt, mkState (Some topic) (Some "write") (Some 1) (Some l1)
                       (Some rc) (Some o) (Some c) None None None)) as R3.
  { unfold_nodes. unfold_py. cbn. rewrite Hc. reflexivity. }
  destruct (walk_moves_on _ _ _ _ _ _ R3 eq_refl W2) as [y3 [W3 [E3 [L3 T3]]]].
  (* critique *)
  destruct (Hrev c rc) as [q Hq].
  assert (run_node Critique 3
            (mkState (Some topic) (Some "write") (Some 1) (Some l1)
               (Some rc) (Some o) (Some c) None None None)
          = (Ret tt, mkState (Some topic) (Some "critique") (Some 1) (Some l1)
                       (Some rc) (Some o) (Some c) (Some q) None None)) as R4.
  { unfold_nodes. unfold_py. cbn. rewrite Hq. reflexivity. }
  set (s4 := mkState (Some topic) (Some "critique") (Some 1) (Some l1)
               (Some rc) (Some o) (Some c) (Some q) None None) in *.
  destruct (next_node_answers Critique s4) as [[n'|] He];
    [discriminate | | apply next_node_end in He; discriminate].
  destruct (walk_moves_on _ _ _ _ _ _ R4 He W3) as [y4 [W4 [E4 [L4 T4]]]].
  pose proof (next_node_cases _ _ _ _ He) as Hn'. cbn in Hn'.
  destruct (walk_reaches_publish _ _ _ _ W4) as [E5 [L5 R5]];
    try discriminate;
    try (destruct Hn' as [[-> _]| ->]; discriminate).
  assert (ended (execution r) = Ret tt) as Hend by congruence.
  split; [exact Hend|]. split.
  - unfold last_stage in *. rewrite T1, T2, T3, T4. cbn.
    destruct (trace y4); [discriminate | exact L5].
  - rewrite Hend in Hfin. subst final.
    rewrite L1, L2, L3, L4, R5. reflexivity.
Qed.

End Walks.

(* ================================================================== *)
(** * The revision gate *)

(** C1.  When ["qa_result"] is in the state, [_should_revise] answers
    ["optimize"] if the review approved, whatever the iteration counter;
    ["optimize"] if the counter has reached [max_writing_iterations],
    whatever the review said; and ["revise"] exactly when the review did
    not approve and the counter is below the cap.  It leaves the state as
    it found it, and two states that agree on the approval flag and on the
    counter get the same answer. *)
Theorem should_revise_policy (settings : Settings) (s : State)
    (qa : QAResult.t) :
  qa_result s = Some qa ->
  let iteration := get_iteration_count s in
  let cap := max_writing_iterations settings in
  (QAResult.approved qa = true ->
   fst (_should_revise settings s) = Ret "optimize") /\
  (cap <= iteration -> fst (_should_revise settings s) = Ret "optimize") /\
  (fst (_should_revise settings s) = Ret "revise" <->
   QAResult.approved qa = false /\ iteration < cap) /\
  snd (_should_revise settings s) = s /\
  (forall s' qa',
      qa_result s' = Some qa' ->
      QAResult.approved qa' = QAResult.approved qa ->
      get_iteration_count s' = get_iteration_count s ->
      fst (_should_revise settings s') = fst (_should_revise settings s)).
Proof.
  intros Hqa iteration cap. subst iteration cap.
  unfold _should_revise, bind, getitem, ret. rewrite Hqa. cbn.
  destruct (QAResult.approved qa) eqn:Ha; cbn.
  - repeat split; try congruence; try discriminate.
    + intros [? _]; discriminate.
    + intros s' qa' Hqa' Ha' Hi. rewrite Hqa'. cbn. now rewrite Ha'.
  - destruct (Z.leb_spec (max_writing_iterations settings)
                (get_iteration_count s)) as [Hle|Hlt]; cbn.
    + repeat split; try congruence; try discriminate.
      * intros [_ ?]; lia.
      * intros s' qa' Hqa' Ha' Hi. rewrite Hqa'. cbn. rewrite Ha', Hi.
        now destruct (Z.leb_spec (max_writing_iterations settings)
                        (get_iteration_count s)); [|lia].
    + repeat split; try congruence; try lia.
      intros s' qa' Hqa' Ha' Hi. rewrite Hqa'. cbn. rewrite Ha', Hi.
      now destruct (Z.leb_spec (max_writing_iterations settings)
                      (get_iteration_count s)); [lia|].
Qed.

(** The gate on a rejected first draft under the default cap of 2. *)
Lemma should_revise_policy_witness :
  fst (_should_revise default_settings (drafted "critique" (Some rejected) 1))
  = Ret "revise".
Proof.
  apply (should_revise_policy default_settings
           (drafted "critique" (Some rejected) 1) rejected eq_refl).
  split; [reflexivity | cbn; lia].
Defined.

(** C2, as the code has it.  Every run comes back, and on the way the write
    node (one pass of the write, critique, gate loop) runs at most
    [max 1 max_writing_iterations] times: the first pass always runs, and
    the gate grants a further pass only below the cap.  When the cap is not
    negative this is within [max_writing_iterations + 1]. *)
Theorem revision_loop_bounded (settings : Settings) (C : Collaborators)
    (format_2f : float -> string) (dry_run : bool) (topic : TopicSpec.t) :
  exists r,
    completes settings C format_2f dry_run topic r /\
    (forall r', completes settings C format_2f dry_run topic r' -> r' = r) /\
    Z.of_nat (executions Write (execution r))
    <= Z.max 1 (max_writing_iterations settings) /\
    (0 <= max_writing_iterations settings ->
     Z.of_nat (executions Write (execution r))
     <= max_writing_iterations settings + 1).
Proof.
  destruct (completes_exists settings C format_2f dry_run topic) as [r Hr].
  exists r. split; [exact Hr|].
  split; [intros r' Hr'; now apply (completes_unique _ _ _ _ _ _ _ Hr Hr')|].
  destruct Hr as [fuel Hrun].
  apply run_walk in Hrun. destruct Hrun as [W _].
  apply walk_writes in W. cbn in W. unfold remaining in W. cbn in W.
  lia.
Qed.

(** The bound on a run whose critic never approves, under the default cap. *)
Lemma revision_loop_bounded_witness :
  exists r,
    completes default_settings (answering [] (always rejected) connection_refused)
      two_decimals true sample_topic r /\
    Z.of_nat (executions Write (execution r)) <= 2 + 1.
Proof.
  destruct (revision_loop_bounded default_settings
              (answering [] (always rejected) connection_refused)
              two_decimals true sample_topic)
    as [r [Hr [_ [_ Hb]]]].
  exists r. split; [exact Hr | apply Hb; cbn; lia].
Defined.

(** C2 as stated fails when the cap is negative: with
    [max_writing_iterations = -1] the loop still runs once, which is more
    than [max_writing_iterations + 1 = 0] times. *)
Lemma revision_loop_not_within_cap_plus_one :
  exists r,
    completes negative_cap (answering [] (always rejected) connection_refused)
      two_decimals true sample_topic r /\
    executions Write (execution r) = 1%nat /\
    ~ (Z.of_nat (executions Write (execution r))
       <= max_writing_iterations negative_cap + 1).
Proof.
  eexists. split; [exists 10%nat; vm_compute; reflexivity|].
  split; [reflexivity | vm_compute; intros H; apply H; reflexivity].
Qed.

(** C3, where the code departs from it.  When the review raises, the
    critique node appends its error entry and stores no QA result; if none
    was stored before, the conditional edge then raises [KeyError] on
    ["qa_result"] instead of routing to [optimize]. *)
Theorem critique_failure_then_gate_raises (settings : Settings)
    (C : Collaborators) (format_2f : float -> string) (dry_run : bool)
    (step : nat) (s : State) (l : list string) (content : BlogContent.t)
    (research : ResearchContext.t) (e : exn) :
  errors s = Some l ->
  draft_content s = Some content ->
  research_context s = Some research ->
  qa_result s = None ->
  review C step content research = Raise e ->
  exists s',
    run_node settings C format_2f dry_run Critique step s = (Ret tt, s') /\
    errors s' = Some (l ++ [("Critique error: " ++ str e)%string])%list /\
    qa_result s' = None /\
    next_node settings Critique s' = (Raise (KeyError "qa_result"), s').
Proof.
  intros El Ed Er Eq Erev.
  destruct s; cbn in El, Ed, Er, Eq; subst.
  unfold run_node, _critique_node, _critique_try, next_node, _should_revise.
  unfold_py. cbn. rewrite Erev. cbn.
  eexists. split; [reflexivity|]. cbn. auto.
Qed.

(** A first critique whose model call fails, and the gate after it. *)
Lemma critique_failure_then_gate_raises_witness :
  exists s',
    run_node default_settings (answering [] failing_critic connection_refused)
      two_decimals true Critique 3 (drafted "write" None 1) = (Ret tt, s') /\
    errors s' = Some ["Critique error: model timed out"] /\
    qa_result s' = None /\
    next_node default_settings Critique s'
    = (Raise (KeyError "qa_result"), s').
Proof.
  exact (critique_failure_then_gate_raises default_settings
           (answering [] failing_critic connection_refused) two_decimals true
           3 (drafted "write" None 1) [] sample_content sample_research
           (OtherException "model timed out")
           eq_refl eq_refl eq_refl eq_refl eq_refl).
Defined.

(* ================================================================== *)
(** * The iteration counter *)

(** C4.  Every execution of the write node raises [iteration_count] by
    exactly one, whatever happens in its body and whether or not it then
    raises; and along a whole run the counter never decreases: it starts
    at 0 and ends at the number of write executions. *)
Theorem write_increments_iteration_count :
  (forall (C : Collaborators) (step : nat) (s : State),
      get_iteration_count (snd (_write_node C step s))
      = get_iteration_count s + 1) /\
  (forall (settings : Settings) (C : Collaborators)
          (format_2f : float -> string) (dry_run : bool)
          (topic : TopicSpec.t),
      exists r final,
        completes settings C format_2f dry_run topic r /\
        result r = Ret final /\
        nondecreasing 0 (iteration_counts (execution r)) /\
        get_iteration_count final
        = Z.of_nat (executions Write (execution r))).
Proof.
  split.
  - intros C step s.
    destruct (_write_node C step s) as [o s'] eqn:H.
    apply (run_node_iteration default_settings C (fun _ => "") false
             Write step s o s' H).
  - intros settings C format_2f dry_run topic.
    destruct (completes_exists settings C format_2f dry_run topic) as [r Hr].
    destruct (run_returns _ _ _ _ _ _ Hr) as [final [l [Hres [El Hfin]]]].
    exists r, final. repeat split; auto.
    + destruct Hr as [fuel H]. apply run_walk in H. destruct H as [W _].
      now apply walk_counts in W.
    + destruct Hr as [fuel H]. apply run_walk in H. destruct H as [W _].
      apply walk_counts in W. destruct W as [_ W]. cbn in W.
      destruct (ended (execution r)); subst final; exact W.
Qed.

(* ================================================================== *)
(** * Failures stay inside [run] *)



(* ================================================================== *)
(** * The publisher *)

Lemma append_nonempty (c : ascii) (a b : string) : (String c a ++ b <> "")%string.
Proof. cbv [append]. discriminate. Qed.

(** C10.  Without an API key or without a blog name (absent or empty),
    [publish] and [update_post] return the failed result with the message
    "Tistory credentials not configured"; they raise nothing and make no
    HTTP request, whatever the content, the visibility and the post id. *)
Theorem tistory_credentials_not_configured
    (http : HttpRequest -> HttpOutcome) (clock : Z)
    (self : TistoryPublisher.t) (content : BlogContent.t)
    (visibility post_id : string) :
  truthy (TistoryPublisher.api_key self) = false \/
  truthy (TistoryPublisher.blog_name self) = false ->
  TistoryPublisher.publish http clock self content visibility
  = (Ret (PublishResult.mk false None None
            (Some "Tistory credentials not configured") None), []) /\
  TistoryPublisher.update_post http clock self post_id content
  = (Ret (PublishResult.mk false None None
            (Some "Tistory credentials not configured") None), []).
Proof.
  intros H. unfold TistoryPublisher.publish, TistoryPublisher.update_post.
  destruct H as [H|H]; rewrite H; cbn.
  - split; reflexivity.
  - rewrite orb_true_r. split; reflexivity.
Qed.

(** The publisher built from the default settings has no credentials. *)
Lemma tistory_credentials_not_configured_witness :
  TistoryPublisher.publish (fun _ => connection_refused) 0
    (TistoryPublisher.init default_settings None None) sample_content "draft"
  = (Ret (PublishResult.mk false None None
            (Some "Tistory credentials not configured") None), []).
Proof.
  apply (tistory_credentials_not_configured (fun _ => connection_refused) 0
           (TistoryPublisher.init default_settings None None) sample_content
           "draft" "1").
  left. reflexivity.
Defined.

Lemma and_then_ret {A B} (o : outcome A) (k : A -> outcome B) (b : B) :
  and_then o k = Ret b -> exists a, o = Ret a /\ k a = Ret b.
Proof. destruct o; cbn; [eauto | discriminate]. Qed.

(** A failed result of the Tistory publisher carries a non-empty message,
    except when the API's own error answer had an empty or null one. *)
Lemma tistory_publish_failure (http : HttpRequest -> HttpOutcome) (clock : Z)
    (self : TistoryPublisher.t) (content : BlogContent.t)
    (visibility : string) (pr : PublishResult.t) :
  fst (TistoryPublisher.publish http clock self content visibility) = Ret pr ->
  PublishResult.success pr = false ->
  (exists m, PublishResult.error_message pr = Some m /\ m <> "") \/
  (exists request body,
      http request = HttpJson body /\
      ((api_error_message body = Ret JNull /\
        PublishResult.error_message pr = None) \/
       (api_error_message body = Ret (JStr "") /\
        PublishResult.error_message pr = Some ""))).
Proof.
  unfold TistoryPublisher.publish.
  destruct (negb (truthy (TistoryPublisher.api_key self))
            || negb (truthy (TistoryPublisher.blog_name self)))%bool; cbn.
  { intros H _. inversion H; subst; cbn. left. eexists. split; eauto.
    discriminate. }
  match goal with
  | |- context [http ?r] => set (request := r)
  end.
  destruct (http request) as [e|body] eqn:Hh.
  { intros H _. left.
    destruct (is_RequestException e); inversion H; subst; cbn;
      eexists; (split; [reflexivity | apply append_nonempty]). }
  intros H F. unfold TistoryPublisher.read_write_response in H.
  destruct (json_get body "tistory" (JDict [])) as [t|e] eqn:Ht; cbn in H.
  2: { left. destruct (is_RequestException e); inversion H; subst; cbn;
       eexists; (split; [reflexivity | apply append_nonempty]). }
  destruct (json_get t "status" JNull) as [status|e] eqn:Hs; cbn in H.
  2: { left. destruct (is_RequestException e); inversion H; subst; cbn;
       eexists; (split; [reflexivity | apply append_nonempty]). }
  destruct (json_eq_str status "200").
  - (* the success branch gives a failed result only by raising *)
    match type of H with
    | context [match ?c with _ => _ end] => destruct c as [r|e] eqn:Hc
    end.
    + inversion H; subst.
      repeat (apply and_then_ret in Hc; destruct Hc as [? [_ Hc]]).
      inversion Hc; subst; discriminate F.
    + left. destruct (is_RequestException e); inversion H; subst; cbn;
        eexists; (split; [reflexivity | apply append_nonempty]).
  - destruct (json_get t "error_message" (JStr "Unknown error"))
      as [msg|e] eqn:Hm; cbn in H.
    2: { left. destruct (is_RequestException e); inversion H; subst; cbn;
         eexists; (split; [reflexivity | apply append_nonempty]). }
    assert (api_error_message body = Ret msg) as Ha
      by (unfold api_error_message; rewrite Ht; cbn; exact Hm).
    destruct msg as [| | |m| |]; cbn in H; inversion H; subst; cbn;
      try (left; eexists; (split; [reflexivity | apply append_nonempty])).
    + right. exists request, body. auto.
    + destruct m as [|c m].
      * right. exists request, body. auto.
      * left. eexists. split; [reflexivity | discriminate].
Qed.

(** C6, as the code has it.  When the publisher is called and returns a
    failed result, the publish node returns normally with that result stored
    under ["publish_result"], it is the last node of the graph, and
    ["outline"], ["draft_content"] and ["final_content"] are as they were.
    The message of the result is non-empty for missing credentials, network
    errors and unexpected exceptions; for an error answer of the API it is
    the answer's own [error_message], which may be empty or null. *)
Theorem publish_failure_recorded (settings : Settings) (C : Collaborators)
    (dry_run : bool) (s : State) (content : BlogContent.t)
    (pr : PublishResult.t) :
  final_content s = Some content ->
  (enable_manual_approval settings = false \/
   exists a, input C (approval_prompt content) = Ret a /\ lower a = "yes") ->
  fst (Publisher_publish (http_post C) (now C) (publisher settings dry_run)
         content (visibility_of settings)) = Ret pr ->
  PublishResult.success pr = false ->
  exists s',
    _publish_node settings C dry_run s = (Ret tt, s') /\
    next_node settings Publish s' = (Ret None, s') /\
    publish_result s' = Some pr /\
    outline s' = outline s /\
    draft_content s' = draft_content s /\
    final_content s' = final_content s /\
    ((exists m, PublishResult.error_message pr = Some m /\ m <> "") \/
     (exists request body,
         http_post C request = HttpJson body /\
         ((api_error_message body = Ret JNull /\
           PublishResult.error_message pr = None) \/
          (api_error_message body = Ret (JStr "") /\
           PublishResult.error_message pr = Some "")))).
Proof.
  intros Hf Hm Hp Hs.
  assert (Hmsg :
    (exists m, PublishResult.error_message pr = Some m /\ m <> "") \/
    (exists request body,
        http_post C request = HttpJson body /\
        ((api_error_message body = Ret JNull /\
          PublishResult.error_message pr = None) \/
         (api_error_message body = Ret (JStr "") /\
          PublishResult.error_message pr = Some "")))).
  { unfold publisher, get_publisher, Publisher_publish in Hp.
    destruct dry_run.
    - cbn in Hp. inversion Hp; subst. discriminate Hs.
    - eapply tistory_publish_failure; eauto. }
  destruct s; cbn in Hf; subst.
  unfold _publish_node, _publish_try, visibility_of, approval_prompt in *.
  unfold_py. cbn.
  destruct Hm as [Hm | [a [Ha Hl]]].
  - rewrite Hm. cbn. rewrite Hp. cbn.
    eexists. repeat split; try reflexivity. exact Hmsg.
  - destruct (enable_manual_approval settings); cbn.
    + rewrite Ha. cbn. rewrite Hl. cbn. rewrite Hp. cbn.
      eexists. repeat split; try reflexivity. exact Hmsg.
    + rewrite Hp. cbn.
      eexists. repeat split; try reflexivity. exact Hmsg.
Qed.

(** A refused connection at publish time. *)
Lemma publish_failure_recorded_witness :
  exists s',
    _publish_node configured unreachable_api false optimized = (Ret tt, s') /\
    publish_result s'
    = Some (PublishResult.failure (Some "Network error: connection refused")) /\
    final_content s' = Some sample_content.
Proof.
  destruct (publish_failure_recorded configured unreachable_api false optimized
              sample_content
              (PublishResult.failure (Some "Network error: connection refused"))
              eq_refl (or_introl eq_refl) eq_refl eq_refl)
    as [s' [Hn [_ [Hr [_ [_ [Hf _]]]]]]].
  exists s'. repeat split; assumption.
Defined.

(** C6 as stated fails on an API error answer whose message is empty: the
    publisher fails, and the stored result has no non-empty message. *)
Lemma publish_failure_with_empty_message :
  fst (Publisher_publish (http_post silent_api_error) (now silent_api_error)
         (publisher configured false) sample_content (visibility_of configured))
  = Ret (PublishResult.failure (Some "")) /\
  ~ (exists pr m,
        publish_result (snd (_publish_node configured silent_api_error false
                               optimized)) = Some pr /\
        PublishResult.success pr = false /\
        PublishResult.error_message pr = Some m /\ m <> "").
Proof.
  split; [vm_compute; reflexivity|].
  intros [pr [m [H1 [_ [H3 H4]]]]].
  vm_compute in H1. inversion H1; subst pr. cbn in H3.
  inversion H3; subst m. now apply H4.
Qed.

(* ================================================================== *)
(** * The research stage *)

(** C7, where the code departs from it.  With an empty retrieval the
    research context has confidence 0.0 and no facts, but the run need not
    reach the publish node: when the first review fails, the conditional
    edge raises on the missing ["qa_result"] and the graph stops after
    [critique]. *)
Theorem empty_retrieval_run_stops_at_gate :
  exists r final,
    completes default_settings (answering [] failing_critic connection_refused)
      two_decimals true sample_topic r /\
    result r = Ret final /\
    research_context final = Some (ResearchContext.mk [] [] [] 0%float) /\
    stages (execution r) = [Research; Outline; Write; Critique] /\
    ended (execution r) = Raise (KeyError "qa_result") /\
    ~ In Publish (stages (execution r)) /\
    publish_result final = None.
Proof.
  eexists. eexists.
  split; [exists 10%nat; vm_compute; reflexivity|].
  vm_compute. repeat split.
  intros H. repeat destruct H as [H|H]; try discriminate H. exact H.
Qed.



(** C9.  When the research agent answers with a confidence below
    [fact_confidence_threshold], the research node stores the context and
    appends a "Research confidence below threshold" entry; and there is a
    run in which every stage succeeds, down to a successful publication,
    that ends with that entry in its error list. *)
Theorem low_confidence_is_recorded :
  (forall (settings : Settings) (C : Collaborators)
          (format_2f : float -> string) (s : State) (t : TopicSpec.t)
          (research : ResearchContext.t) (l : list string),
      topic s = Some t ->
      errors s = Some l ->
      ResearchAgent.research C t = Ret research ->
      PrimFloat.ltb (ResearchContext.confidence_score research)
        (fact_confidence_threshold settings) = true ->
      exists s',
        _research_node settings C format_2f s = (Ret tt, s') /\
        research_context s' = Some research /\
        errors s'
        = Some (l ++ [("Research confidence below threshold: "
                       ++ format_2f (ResearchContext.confidence_score research))
                      %string])%list) /\
  (exists r final pr,
      completes default_settings
        (answering sample_docs (always approved_qa) connection_refused)
        two_decimals true sample_topic r /\
      result r = Ret final /\
      ended (execution r) = Ret tt /\
      stages (execution r)
      = [Research; Outline; Write; Critique; Optimize; Publish] /\
      outline final = Some sample_outline /\
      draft_content final = Some sample_content /\
      qa_result final = Some approved_qa /\
      final_content final = Some sample_content /\
      publish_result final = Some pr /\
      PublishResult.success pr = true /\
      errors final = Some ["Research confidence below threshold: 0.50"]).
Proof.
  split.
  - intros settings C format_2f s t research l Ht El Hr Hlow.
    destruct s; cbn in Ht, El; subst.
    unfold _research_node, _research_try. unfold_py. cbn. rewrite Hr. cbn. rewrite Hlow. cbn.
    eexists. repeat split.
  - eexists. eexists. eexists.
    split; [exists 10%nat; vm_compute; reflexivity|].
    vm_compute. repeat split.
Qed.

(** The research node of a run whose single document scores 2.5. *)
Lemma low_confidence_is_recorded_witness :
  exists s',
    _research_node default_settings unreachable_api two_decimals
      (initial_state sample_topic) = (Ret tt, s') /\
    errors s' = Some ["Research confidence below threshold: 0.50"].
Proof.
  destruct (proj1 low_confidence_is_recorded default_settings unreachable_api
              two_decimals (initial_state sample_topic) sample_topic
              (ResearchContext.mk
                 [Source.mk "X is a letter" (Some "x.md") 2.5%float]
                 ["X is a letter"] ["x.md"] 0.5%float)
              [] eq_refl eq_refl eq_refl eq_refl)
    as [s' [Hn [_ He]]].
  exists s'. split; assumption.
Defined.

(* ================================================================== *)
(** * Further properties of the stages *)

(** Each node writes its own keys and no others. *)
Lemma run_node_frame (settings : Settings) (C : Collaborators)
    (format_2f : float -> string) (dry_run : bool) n step s o s' :
  run_node settings C format_2f dry_run n step s = (o, s') ->
  topic s' = topic s /\
  (n <> Write -> iteration_count s' = iteration_count s) /\
  (n <> Research -> research_context s' = research_context s) /\
  (n <> Outline -> outline s' = outline s) /\
  (n <> Write -> draft_content s' = draft_content s) /\
  (n <> Critique -> qa_result s' = qa_result s) /\
  (n <> Optimize -> final_content s' = final_content s) /\
  (n <> Publish -> publish_result s' = publish_result s).
Proof.
  destruct n; intros H; run_py; repeat split; congruence.
Qed.

(** X1.  Whatever it returns or raises, a node leaves the topic alone and
    writes, besides [current_stage] and [errors], only its own entries:
    the research context for research, the outline for outline, the
    iteration counter and the draft for write, the QA result for critique,
    the final content for optimize and the publish result for publish. *)
Theorem node_writes_only_its_keys (settings : Settings) (C : Collaborators)
    (format_2f : float -> string) (dry_run : bool) (n : node) (step : nat)
    (s : State) :
  topic (snd (run_node settings C format_2f dry_run n step s)) = topic s /\
  (n <> Write ->
   iteration_count (snd (run_node settings C format_2f dry_run n step s))
   = iteration_count s) /\
  (n <> Research ->
   research_context (snd (run_node settings C format_2f dry_run n step s))
   = research_context s) /\
  (n <> Outline ->
   outline (snd (run_node settings C format_2f dry_run n step s))
   = outline s) /\
  (n <> Write ->
   draft_content (snd (run_node settings C format_2f dry_run n step s))
   = draft_content s) /\
  (n <> Critique ->
   qa_result (snd (run_node settings C format_2f dry_run n step s))
   = qa_result s) /\
  (n <> Optimize ->
   final_content (snd (run_node settings C format_2f dry_run n step s))
   = final_content s) /\
  (n <> Publish ->
   publish_result (snd (run_node settings C format_2f dry_run n step s))
   = publish_result s).
Proof.
  destruct (run_node settings C format_2f dry_run n step s) as [o s'] eqn:H.
  exact (run_node_frame _ _ _ _ _ _ _ _ _ H).
Qed.

(** The publish node leaves the draft of a state ready for publication. *)
Lemma node_writes_only_its_keys_witness :
  draft_content
    (snd (run_node configured unreachable_api two_decimals false Publish 5
            optimized))
  = Some sample_content.
Proof.
  destruct (node_writes_only_its_keys configured unreachable_api two_decimals
              false Publish 5 optimized) as [_ [_ [_ [_ [H _]]]]].
  rewrite H; [reflexivity | discriminate].
Defined.

(** A node appends at most one entry to the error list. *)
Lemma run_node_one_entry (settings : Settings) (C : Collaborators)
    (format_2f : float -> string) (dry_run : bool) n step s o s' l :
  run_node settings C format_2f dry_run n step s = (o, s') ->
  errors s = Some l ->
  exists added,
    errors s' = Some (l ++ added)%list /\ (List.length added <= 1)%nat.
Proof.
  destruct n; intros H E; run_py; same_key;
    first [ exists []; split;
            [rewrite app_nil_r; first [reflexivity | eassumption] | cbn; lia]
          | eexists [_]; split; [reflexivity | cbn; lia] ].
Qed.

(** Along a walk the error list grows by at most one entry per node. *)
Lemma walk_error_count (settings : Settings) (C : Collaborators)
    (format_2f : float -> string) (dry_run : bool) step n s x :
  walk settings C format_2f dry_run step n s x ->
  forall l, errors s = Some l ->
  exists lf,
    errors (last_state x) = Some lf /\
    (List.length lf <= List.length l + List.length (trace x))%nat.
Proof.
  induction 1 as [step n s e s1 Hn | step n s u s1 e s2 Hn He
                 | step n s u s1 s2 Hn He
                 | step n s u s1 n' s2 x Hn He Hw IH];
    intros l El;
    destruct (run_node_one_entry _ _ _ _ _ _ _ _ _ _ Hn El)
      as [added [E1 L1]];
    try (pose proof (next_node_state _ _ _ _ _ He) as ->).
  1-3: eexists; split; [exact E1 | rewrite length_app; cbn; lia].
  destruct (IH _ E1) as [lf [Ef Lf]].
  exists lf. split; [exact Ef|]. rewrite length_app in Lf. cbn. lia.
Qed.

(** X2.  A run records at most one error entry per node execution, plus the
    pipeline error when the graph raised: the returned list is never longer
    than the number of nodes that ran plus one. *)
Theorem run_error_count (settings : Settings) (C : Collaborators)
    (format_2f : float -> string) (dry_run : bool) (spec : TopicSpec.t) :
  exists r final errs,
    completes settings C format_2f dry_run spec r /\
    result r = Ret final /\
    errors final = Some errs /\
    (List.length errs <= List.length (stages (execution r)) + 1)%nat.
Proof.
  destruct (completes_exists settings C format_2f dry_run spec) as [r Hr].
  destruct (run_returns _ _ _ _ _ _ Hr) as [final [l [Hres [El Hfin]]]].
  pose proof Hr as [fuel Hrun].
  destruct (run_walk _ _ _ _ _ _ _ Hrun) as [W _].
  destruct (walk_error_count _ _ _ _ _ _ _ _ W [] eq_refl) as [lf [Ef Lf]].
  rewrite Ef in El. inversion El; subst l.
  assert (List.length (stages (execution r))
          = List.length (trace (execution r))) as Hlen
    by (unfold stages; apply length_map).
  cbn in Lf.
  destruct (ended (execution r)); subst final.
  - exists r, (last_state (execution r)), lf. repeat split; auto. lia.
  - exists r. eexists.
    exists (lf ++ [("Pipeline error: " ++ str e)%string])%list.
    split; [exact Hr|]. split; [exact Hres|]. split; [reflexivity|].
    rewrite length_app. cbn. lia.
Qed.

(** X3.  The optimize node passes the draft on unchanged: with a draft in
    the state it stores that very draft as final content, adds no error and
    returns.  Without one its fallback cannot work either: it appends
    "Optimize error: 'draft_content'" and raises [KeyError] on
    ["draft_content"], leaving no final content. *)
Theorem optimize_copies_draft_or_raises (settings : Settings)
    (C : Collaborators) (format_2f : float -> string) (dry_run : bool)
    (step : nat) (s : State) :
  (forall draft,
      draft_content s = Some draft ->
      run_node settings C format_2f dry_run Optimize step s
      = (Ret tt, set_final_content draft (set_current_stage "optimize" s))) /\
  (forall l,
      draft_content s = None ->
      errors s = Some l ->
      run_node settings C format_2f dry_run Optimize step s
      = (Raise (KeyError "draft_content"),
         set_errors (l ++ ["Optimize error: 'draft_content'"])%list
           (set_current_stage "optimize" s))).
Proof.
  split.
  - intros draft Hd. destruct s; cbn in Hd; subst. reflexivity.
  - intros l Hd El. destruct s; cbn in Hd, El; subst. reflexivity.
Qed.

(** Optimizing a state that has a draft. *)
Lemma optimize_copies_draft_or_raises_witness :
  final_content
    (snd (run_node default_settings unreachable_api two_decimals true
            Optimize 4 (drafted "critique" (Some approved_qa) 1)))
  = Some sample_content.
Proof.
  rewrite (proj1 (optimize_copies_draft_or_raises default_settings
                    unreachable_api two_decimals true 4
                    (drafted "critique" (Some approved_qa) 1))
             sample_content eq_refl).
  reflexivity.
Defined.

(** X4.  With manual approval enabled, any answer other than "yes" (in any
    letter case) cancels the publication: the publish node stores the failed
    result "Cancelled by user", adds no error, and does so whatever the
    publisher and the HTTP endpoint are.  When reading the answer raises,
    the node appends "Publish error: ..." and stores no result. *)
Theorem publish_needs_approval (settings : Settings) (C : Collaborators)
    (dry_run : bool) (s : State) (content : BlogContent.t) :
  enable_manual_approval settings = true ->
  final_content s = Some content ->
  (forall answer,
      input C (approval_prompt content) = Ret answer ->
      lower answer <> "yes" ->
      _publish_node settings C dry_run s
      = (Ret tt,
         set_publish_result (PublishResult.failure (Some "Cancelled by user"))
           (set_current_stage "publish" s))) /\
  (forall e l,
      input C (approval_prompt content) = Raise e ->
      errors s = Some l ->
      _publish_node settings C dry_run s
      = (Ret tt,
         set_errors (l ++ [("Publish error: " ++ str e)%string])%list
           (set_current_stage "publish" s))).
Proof.
  intros Hm Hf. destruct s; cbn in Hf; subst.
  unfold _publish_node, _publish_try, approval_prompt. unfold_py. cbn.
  rewrite Hm. split.
  - intros answer Ha Hl. rewrite Ha. cbn.
    destruct (String.eqb_spec (lower answer) "yes") as [E|E];
      [contradiction | reflexivity].
  - intros e l He El. cbn in El. subst. rewrite He. reflexivity.
Qed.

(** X5.  A critique that fails on a later pass leaves the QA result of the
    earlier pass in the state, and the gate then decides on that stale
    result: it routes to [optimize] if the earlier review approved or the
    counter has reached the cap, and back to [write] otherwise. *)
Theorem stale_qa_result_decides (settings : Settings) (C : Collaborators)
    (format_2f : float -> string) (dry_run : bool) (step : nat) (s : State)
    (l : list string) (content : BlogContent.t) (research : ResearchContext.t)
    (qa : QAResult.t) (e : exn) :
  errors s = Some l ->
  draft_content s = Some content ->
  research_context s = Some research ->
  qa_result s = Some qa ->
  review C step content research = Raise e ->
  exists s',
    run_node settings C format_2f dry_run Critique step s = (Ret tt, s') /\
    qa_result s' = Some qa /\
    errors s' = Some (l ++ [("Critique error: " ++ str e)%string])%list /\
    next_node settings Critique s'
    = (Ret (Some (if (QAResult.approved qa
                      || (max_writing_iterations settings
                          <=? get_iteration_count s))%bool
                  then Optimize else Write)), s').
Proof.
  intros El Ed Er Eq Erev.
  destruct s; cbn in El, Ed, Er, Eq; subst.
  unfold run_node, _critique_node, _critique_try, next_node, _should_revise.
  unfold_py. cbn. rewrite Erev. cbn.
  eexists. split; [reflexivity|]. cbn.
  repeat split.
  destruct (QAResult.approved qa); cbn; [reflexivity|].
  unfold get_iteration_count; cbn.
  destruct (max_writing_iterations settings <=? _); reflexivity.
Qed.

(** A failing critic on the second pass of a rejected draft, cap 3. *)
Lemma stale_qa_result_decides_witness :
  exists s',
    run_node (with_max_writing_iterations 3 default_settings)
      (answering [] failing_critic connection_refused) two_decimals true
      Critique 5 (drafted "write" (Some rejected) 2) = (Ret tt, s') /\
    next_node (with_max_writing_iterations 3 default_settings) Critique s'
    = (Ret (Some Write), s').
Proof.
  destruct (stale_qa_result_decides
              (with_max_writing_iterations 3 default_settings)
              (answering [] failing_critic connection_refused) two_decimals
              true 5 (drafted "write" (Some rejected) 2) [] sample_content
              sample_research rejected (OtherException "model timed out")
              eq_refl eq_refl eq_refl eq_refl eq_refl)
    as [s' [Hn [_ [_ He]]]].
  exists s'. split; [exact Hn | exact He].
Defined.



(* ================================================================== *)
(** * The shape of a run *)

Section RunShape.

Variable settings : Settings.
Variable C : Collaborators.
Variable format_2f : float -> string.
Variable dry_run : bool.

Notation run_node := (run_node settings C format_2f dry_run).
Notation next_node := (next_node settings).
Notation walk := (walk settings C format_2f dry_run).

(** A walk whose node returned and whose edge raised stops there. *)
Lemma walk_stops step n s x s1 e :
  run_node n step s = (Ret tt, s1) ->
  next_node n s1 = (Raise e, s1) ->
  walk step n s x ->
  x = mkExecution (Raise e) s1 [(n, s1)].
Proof.
  intros Hn He W.
  apply (walk_deterministic _ _ _ _ _ _ _ _ (walk_edge_raises _ _ _ _ _ _ _ _ _ _ _ Hn He) _ W).
Qed.

(** A QA result first stored by the critique node comes with a draft. *)
Lemma critique_stores_qa_of_a_draft step s o s' :
  run_node Critique step s = (o, s') ->
  qa_result s = None -> qa_result s' <> None -> draft_content s' <> None.
Proof. intros H Q; run_py; congruence. Qed.

(** The opening of every run: research, outline, write and critique run
    once each and return; then either no QA result is stored and the gate
    raises, or one is stored, with a draft, and the walk goes on. *)
Lemma run_opening spec x :
  walk 0 Research (initial_state spec) x ->
  exists s1 s2 s3 s4,
    errors s4 <> None /\ topic s4 <> None /\
    ((qa_result s4 = None /\
      x = mkExecution (Raise (KeyError "qa_result")) s4
            [(Research, s1); (Outline, s2); (Write, s3); (Critique, s4)]) \/
     (qa_result s4 <> None /\ draft_content s4 <> None /\
      exists n' y,
        (n' = Write \/ n' = Optimize) /\
        walk 4 n' s4 y /\ ended x = ended y /\
        last_state x = last_state y /\
        trace x = (Research, s1) :: (Outline, s2) :: (Write, s3)
                  :: (Critique, s4) :: trace y)).
Proof.
  intros W.
  (* research *)
  destruct (run_node Research 0 (initial_state spec)) as [o1 s1] eqn:R1.
  assert (o1 = Ret tt) as ->
    by (eapply run_node_returns;
        [exact R1 | right; discriminate | left; discriminate | discriminate]).
  pose proof (run_node_keeps _ _ _ _ _ _ _ _ _ R1) as [_ [_ [K1 _]]].
  pose proof (run_node_frame _ _ _ _ _ _ _ _ _ R1)
    as [T1 [_ [_ [_ [D1 [Q1 _]]]]]].
  destruct (walk_moves_on _ _ _ _ _ _ _ _ _ _ R1 eq_refl W)
    as [y1 [W1 [E1 [L1 Tr1]]]].
  (* outline *)
  destruct (run_node Outline 1 s1) as [o2 s2] eqn:R2.
  assert (errors s1 <> None) as X1 by (apply K1; discriminate).
  assert (o2 = Ret tt) as ->
    by (eapply run_node_returns;
        [exact R2 | left; discriminate | left; discriminate | exact X1]).
  pose proof (run_node_keeps _ _ _ _ _ _ _ _ _ R2) as [_ [_ [K2 _]]].
  pose proof (run_node_frame _ _ _ _ _ _ _ _ _ R2)
    as [T2 [_ [_ [_ [D2 [Q2 _]]]]]].
  destruct (walk_moves_on _ _ _ _ _ _ _ _ _ _ R2 eq_refl W1)
    as [y2 [W2 [E2 [L2 Tr2]]]].
  (* write *)
  destruct (run_node Write 2 s2) as [o3 s3] eqn:R3.
  assert (errors s2 <> None) as X2 by (apply K2; exact X1).
  assert (o3 = Ret tt) as ->
    by (eapply run_node_returns;
        [exact R3 | left; discriminate | left; discriminate | exact X2]).
  pose proof (run_node_keeps _ _ _ _ _ _ _ _ _ R3) as [_ [_ [K3 _]]].
  pose proof (run_node_frame _ _ _ _ _ _ _ _ _ R3)
    as [T3 [_ [_ [_ [_ [Q3 _]]]]]].
  destruct (walk_moves_on _ _ _ _ _ _ _ _ _ _ R3 eq_refl W2)
    as [y3 [W3 [E3 [L3 Tr3]]]].
  (* critique *)
  destruct (run_node Critique 3 s3) as [o4 s4] eqn:R4.
  assert (errors s3 <> None) as X3 by (apply K3; exact X2).
  assert (o4 = Ret tt) as ->
    by (eapply run_node_returns;
        [exact R4 | left; discriminate | left; discriminate | exact X3]).
  pose proof (run_node_keeps _ _ _ _ _ _ _ _ _ R4) as [_ [_ [K4 _]]].
  pose proof (run_node_frame _ _ _ _ _ _ _ _ _ R4) as [T4 _].
  assert (qa_result s3 = None) as Q.
  { rewrite Q3, Q2, Q1 by discriminate. reflexivity. }
  exists s1, s2, s3, s4.
  split; [apply K4; exact X3|].
  split; [rewrite T4, T3, T2, T1; discriminate|].
  destruct (qa_result s4) as [qa|] eqn:Q4.
  - right.
    assert (qa_result s4 <> None) as Q4' by (rewrite Q4; discriminate).
    split; [discriminate|].
    split; [apply (critique_stores_qa_of_a_draft _ _ _ _ R4 Q Q4')|].
    destruct (next_node_answers settings Critique s4 Q4') as [[n'|] He];
      [| apply next_node_end in He; discriminate].
    destruct (walk_moves_on _ _ _ _ _ _ _ _ _ _ R4 He W3)
      as [y4 [W4 [E4 [L4 Tr4]]]].
    pose proof (next_node_cases _ _ _ _ _ He) as Hc. cbn in Hc.
    exists n', y4.
    split; [destruct Hc as [[-> _]| ->]; auto|].
    split; [exact W4|]. split; [congruence|]. split; [congruence|].
    rewrite Tr1, Tr2, Tr3, Tr4. reflexivity.
  - left. split; [reflexivity|].
    assert (next_node Critique s4 = (Raise (KeyError "qa_result"), s4)) as He.
    { clear - Q4. destruct s4; cbn in Q4; subst. reflexivity. }
    pose proof (walk_stops _ _ _ _ _ _ R4 He W3) as Y3.
    rewrite Y3 in E3, L3, Tr3. cbn in E3, L3, Tr3.
    destruct x as [xe xs xt]; cbn in E1, L1, Tr1 |- *.
    f_equal; congruence.
Qed.

(** With a draft the optimize node makes it the final content. *)
Lemma optimize_sets_final step s o s1 :
  run_node Optimize step s = (o, s1) ->
  draft_content s <> None ->
  final_content s1 = draft_content s1.
Proof. intros H D; run_py; congruence. Qed.

(** Past the first review the walk carries the draft to the end: when it
    is over, the final content is the draft. *)
Lemma walk_publishes_draft step n s x :
  walk step n s x ->
  n <> Research -> n <> Outline ->
  errors s <> None -> draft_content s <> None -> qa_result s <> None ->
  (n = Publish -> final_content s = draft_content s) ->
  final_content (last_state x) = draft_content (last_state x) /\
  draft_content (last_state x) <> None.
Proof.
  induction 1 as [step n s e s1 Hn | step n s u s1 e s2 Hn He
                 | step n s u s1 s2 Hn He
                 | step n s u s1 n' s2 x Hn He Hw IH];
    intros N1 N2 E D Q P;
    pose proof (run_node_keeps _ _ _ _ _ _ _ _ _ Hn) as [KD [KQ [KE KR]]];
    pose proof (run_node_frame _ _ _ _ _ _ _ _ _ Hn)
      as [_ [_ [_ [_ [FD [_ [FF _]]]]]]];
    try (pose proof (next_node_state _ _ _ _ _ He) as ->).
  - pose proof (run_node_returns _ _ _ _ _ _ _ _ _ Hn (or_introl N1)
                  (or_intror D) E).
    discriminate.
  - destruct (next_node_answers settings n s1 (KQ Q)) as [m Hm]. congruence.
  - pose proof (next_node_end _ _ _ _ He) as ->. cbn.
    split; [|auto].
    rewrite FF, FD by discriminate. auto.
  - pose proof (next_node_cases _ _ _ _ _ He) as Hc. cbn.
    apply IH; auto.
    + destruct n; cbn in Hc; try contradiction; subst; try discriminate.
      destruct Hc as [[-> _]| ->]; discriminate.
    + destruct n; cbn in Hc; try contradiction; subst; try discriminate.
      destruct Hc as [[-> _]| ->]; discriminate.
    + intros ->. destruct n; cbn in Hc; try contradiction; try discriminate.
      * destruct Hc as [[? _]| ?]; discriminate.
      * eapply optimize_sets_final; eauto.
Qed.


(** X8.  The iteration counter a run returns is at least 1 and at most
    [max 1 max_writing_iterations]: the write node always runs once, and
    the gate grants no pass beyond the cap. *)
Theorem returned_iteration_count_bounds (spec : TopicSpec.t) :
  exists r final,
    completes settings C format_2f dry_run spec r /\
    result r = Ret final /\
    1 <= get_iteration_count final <= Z.max 1 (max_writing_iterations settings).
Proof.
  destruct (completes_exists settings C format_2f dry_run spec) as [r Hr].
  destruct (run_returns _ _ _ _ _ _ Hr) as [final [l [Hres [El Hfin]]]].
  exists r, final. split; [exact Hr|]. split; [exact Hres|].
  destruct Hr as [fuel Hrun]. apply run_walk in Hrun. destruct Hrun as [W _].
  pose proof (walk_writes _ _ _ _ _ _ _ _ W) as Hw.
  destruct (walk_counts _ _ _ _ _ _ _ _ W) as [_ Hc].
  cbn in Hw, Hc. unfold remaining in Hw. cbn in Hw.
  assert (get_iteration_count final
          = Z.of_nat (executions Write (execution r))) as ->.
  { destruct (ended (execution r)); subst final; exact Hc. }
  assert (1 <= executions Write (execution r))%nat.
  { destruct (run_opening _ _ W) as [s1 [s2 [s3 [s4 [_ [_ H]]]]]].
    unfold executions, stages.
    destruct H as [[_ Hx] | [_ [_ [n' [y [_ [_ [_ [_ Et]]]]]]]]].
    - rewrite Hx. cbn. lia.
    - rewrite Et. cbn. lia. }
  lia.
Qed.

(** X9.  When the graph of a run ends at [END], the final content the run
    returns is its last draft, unchanged: optimization adds nothing and
    publishing does not touch it. *)
Theorem published_content_is_last_draft (spec : TopicSpec.t) :
  exists r final,
    completes settings C format_2f dry_run spec r /\
    result r = Ret final /\
    (ended (execution r) = Ret tt ->
     exists draft,
       draft_content final = Some draft /\ final_content final = Some draft).
Proof.
  destruct (completes_exists settings C format_2f dry_run spec) as [r Hr].
  destruct (run_returns _ _ _ _ _ _ Hr) as [final [l [Hres [El Hfin]]]].
  exists r, final. split; [exact Hr|]. split; [exact Hres|].
  destruct Hr as [fuel Hrun]. apply run_walk in Hrun. destruct Hrun as [W _].
  intros Hend. rewrite Hend in Hfin. subst final.
  destruct (run_opening _ _ W) as [s1 [s2 [s3 [s4 [E4 [T4 H]]]]]].
  destruct H as [[Q4 Hx] | [Q4 [D4 [n' [y [Hn' [Wy [Ee [El' Et]]]]]]]]].
  - rewrite Hx in Hend. discriminate.
  - destruct (walk_publishes_draft _ _ _ _ Wy) as [Hf Hd]; auto;
      try (destruct Hn' as [-> | ->]; discriminate).
    rewrite El'.
    destruct (draft_content (last_state y)) as [d|]; [|congruence].
    exists d. split; [reflexivity | exact Hf].
Qed.

End RunShape.

(* ================================================================== *)
(** * Further properties of the publishers *)

(** X10.  The Tistory publisher contains its failures: [publish] and
    [update_post] always return a result, whatever the endpoint does, and
    make at most one request each, to [/post/write] and [/post/modify]
    under the base URL, with a timeout of 30 seconds. *)
Theorem tistory_publisher_contains_failures
    (http : HttpRequest -> HttpOutcome) (clock : Z)
    (self : TistoryPublisher.t) (content : BlogContent.t)
    (visibility post_id : string) :
  (exists pr,
      fst (TistoryPublisher.publish http clock self content visibility)
      = Ret pr) /\
  (exists pr,
      fst (TistoryPublisher.update_post http clock self post_id content)
      = Ret pr) /\
  (List.length
     (snd (TistoryPublisher.publish http clock self content visibility))
   <= 1)%nat /\
  (List.length
     (snd (TistoryPublisher.update_post http clock self post_id content))
   <= 1)%nat /\
  Forall (fun request =>
            url request = TistoryPublisher.base_url self ++ "/post/write"
            /\ timeout request = 30)
    (snd (TistoryPublisher.publish http clock self content visibility)) /\
  Forall (fun request =>
            url request = TistoryPublisher.base_url self ++ "/post/modify"
            /\ timeout request = 30)
    (snd (TistoryPublisher.update_post http clock self post_id content)).
Proof.
  unfold TistoryPublisher.publish, TistoryPublisher.update_post.
  destruct (negb (truthy (TistoryPublisher.api_key self))
            || negb (truthy (TistoryPublisher.blog_name self)))%bool; cbn.
  - repeat split; eauto.
  - repeat split; try lia;
      try (constructor; [split; reflexivity | constructor]).
    + match goal with
      | |- context [match ?b with Ret _ => _ | Raise _ => _ end] =>
          destruct b as [r|e]; [eauto | destruct (is_RequestException e); eauto]
      end.
    + match goal with
      | |- context [match ?b with Ret _ => _ | Raise _ => _ end] =>
          destruct b as [r|e]; eauto
      end.
Qed.

Lemma truthy_unwrap (k : option string) : truthy k = true -> Some (unwrap k) = k.
Proof. destruct k as [[|c k]|]; cbn; congruence. Qed.

(** X11.  The request of the publish stage.  With both credentials in the
    settings, the (non dry-run) publisher makes one request to the write
    endpoint carrying the credentials, the post's title, content and
    category, and the visibility code: "0" (draft) when [auto_publish] is
    off or [publish_mode] is exactly "draft", "3" (public) for every other
    [publish_mode]. *)
Theorem publish_stage_request (settings : Settings) (C : Collaborators)
    (content : BlogContent.t) :
  truthy (tistory_api_key settings) = true ->
  truthy (tistory_blog_name settings) = true ->
  exists request,
    snd (Publisher_publish (http_post C) (now C) (publisher settings false)
           content (visibility_of settings)) = [request] /\
    url request = "https://www.tistory.com/apis/post/write" /\
    assoc "access_token" (data request) = tistory_api_key settings /\
    assoc "blogName" (data request) = tistory_blog_name settings /\
    assoc "title" (data request) = Some (BlogContent.title content) /\
    assoc "content" (data request) = Some (BlogContent.content content) /\
    assoc "category" (data request) = Some (BlogContent.category content) /\
    assoc "visibility" (data request)
    = Some (if (negb (auto_publish settings)
                || String.eqb (publish_mode settings) "draft")%bool
            then "0" else "3").
Proof.
  intros Hk Hn.
  unfold publisher, get_publisher, Publisher_publish, TistoryPublisher.init,
    TistoryPublisher.publish, py_or, visibility_of.
  cbn. rewrite Hk, Hn. cbn.
  eexists. split; [reflexivity|]. cbn.
  repeat split; try (apply truthy_unwrap; assumption).
  destruct (auto_publish settings); cbn; reflexivity.
Qed.

(** With credentials and the defaults, the post goes out as a draft. *)
Lemma publish_stage_request_witness :
  exists request,
    snd (Publisher_publish (http_post unreachable_api) (now unreachable_api)
           (publisher configured false) sample_content
           (visibility_of configured)) = [request] /\
    assoc "visibility" (data request) = Some "0".
Proof.
  destruct (publish_stage_request configured unreachable_api sample_content
              eq_refl eq_refl) as [request [Hr [_ [_ [_ [_ [_ [_ Hv]]]]]]]].
  exists request. split; [exact Hr | exact Hv].
Defined.

(** X12.  [publish] reports success only for an answer whose ["tistory"]
    object has the status "200" as a string and carries ["postId"] and
    ["url"]; the result then holds these two, the time of the call and no
    error message.  And with credentials, every such answer with string
    id and URL is reported as success. *)
Theorem tistory_publish_success (http : HttpRequest -> HttpOutcome)
    (clock : Z) (self : TistoryPublisher.t) (content : BlogContent.t)
    (visibility : string) :
  (forall pr,
      fst (TistoryPublisher.publish http clock self content visibility)
      = Ret pr ->
      PublishResult.success pr = true ->
      exists request body t id u,
        snd (TistoryPublisher.publish http clock self content visibility)
        = [request] /\
        http request = HttpJson body /\
        json_getitem body "tistory" = Ret t /\
        json_get t "status" JNull = Ret (JStr "200") /\
        json_getitem t "postId" = Ret id /\
        json_getitem t "url" = Ret u /\
        as_optional_str "post_id" id = Ret (PublishResult.post_id pr) /\
        as_optional_str "post_url" u = Ret (PublishResult.post_url pr) /\
        PublishResult.error_message pr = None /\
        PublishResult.published_at pr = Some clock) /\
  (forall rest id u,
      truthy (TistoryPublisher.api_key self) = true ->
      truthy (TistoryPublisher.blog_name self) = true ->
      (forall request,
          http request
          = HttpJson (JDict [("tistory",
                              JDict (("status", JStr "200")
                                     :: ("postId", JStr id)
                                     :: ("url", JStr u) :: rest))])) ->
      fst (TistoryPublisher.publish http clock self content visibility)
      = Ret (PublishResult.mk true (Some u) (Some id) None (Some clock))).
Proof.
  split.
  - intros pr. unfold TistoryPublisher.publish.
    destruct (negb (truthy (TistoryPublisher.api_key self))
              || negb (truthy (TistoryPublisher.blog_name self)))%bool; cbn.
    { intros H F. inversion H; subst. discriminate F. }
    match goal with
    | |- context [http ?r] => set (request := r)
    end.
    destruct (http request) as [e|body] eqn:Hh.
    { intros H F. destruct (is_RequestException e); inversion H; subst;
        discriminate F. }
    intros H F. unfold TistoryPublisher.read_write_response in H.
    destruct (json_get body "tistory" (JDict [])) as [t|e] eqn:Ht; cbn in H.
    2: { destruct (is_RequestException e); inversion H; subst;
         discriminate F. }
    destruct (json_get t "status" JNull) as [status|e] eqn:Hs; cbn in H.
    2: { destruct (is_RequestException e); inversion H; subst;
         discriminate F. }
    destruct (json_eq_str status "200") eqn:H200.
    + match type of H with
      | context [match ?c with _ => _ end] => destruct c as [r|e] eqn:Hc
      end.
      2: { destruct (is_RequestException e); inversion H; subst;
           discriminate F. }
      inversion H; subst r. clear H.
      apply and_then_ret in Hc. destruct Hc as [t1 [G1 Hc]].
      apply and_then_ret in Hc. destruct Hc as [id [G2 Hc]].
      apply and_then_ret in Hc. destruct Hc as [t2 [G3 Hc]].
      apply and_then_ret in Hc. destruct Hc as [u [G4 Hc]].
      apply and_then_ret in Hc. destruct Hc as [ou [G5 Hc]].
      apply and_then_ret in Hc. destruct Hc as [oi [G6 Hc]].
      inversion Hc; subst pr. cbn.
      rewrite G1 in G3. inversion G3; subst t2.
      assert (t1 = t) as ->.
      { destruct body; cbn in Ht, G1; try discriminate.
        destruct (assoc "tistory" kv); congruence. }
      assert (status = JStr "200") as ->.
      { destruct status; cbn in H200; try discriminate.
        apply String.eqb_eq in H200. congruence. }
      exists request, body, t, id, u. repeat split; auto.
    + match type of H with
      | context [match ?c with _ => _ end] => destruct c as [r|e] eqn:Hc
      end.
      2: { destruct (is_RequestException e); inversion H; subst;
           discriminate F. }
      inversion H; subst r. clear H.
      repeat (apply and_then_ret in Hc; destruct Hc as [? [_ Hc]]).
      inversion Hc; subst; discriminate F.
  - intros rest id u Hk Hn Hh. unfold TistoryPublisher.publish.
    rewrite Hk, Hn. cbn. rewrite Hh. reflexivity.
Qed.

(** A successful answer of the API. *)
Lemma tistory_publish_success_witness :
  fst (TistoryPublisher.publish
         (fun _ =>
            HttpJson (JDict [("tistory",
                              JDict [("status", JStr "200");
                                     ("postId", JStr "74");
                                     ("url", JStr "https://blog.tistory.com/74")])]))
         7 (TistoryPublisher.init configured None None) sample_content "draft")
  = Ret (PublishResult.mk true (Some "https://blog.tistory.com/74")
           (Some "74") None (Some 7)).
Proof.
  apply (proj2 (tistory_publish_success _ 7
                  (TistoryPublisher.init configured None None)
                  sample_content "draft") [] "74"
           "https://blog.tistory.com/74" eq_refl eq_refl).
  intros request. reflexivity.
Defined.

(** X13.  [update_post] keeps the id it was given: a successful result
    carries [post_id] and the time of the call, whatever id the answer
    mentions, and the request names that post.  When the request raises,
    the message is the text of the exception, with no prefix. *)
Theorem update_post_keeps_post_id (http : HttpRequest -> HttpOutcome)
    (clock : Z) (self : TistoryPublisher.t) (post_id : string)
    (content : BlogContent.t) :
  (forall pr,
      fst (TistoryPublisher.update_post http clock self post_id content)
      = Ret pr ->
      PublishResult.success pr = true ->
      PublishResult.post_id pr = Some post_id /\
      PublishResult.published_at pr = Some clock /\
      PublishResult.error_message pr = None /\
      exists request,
        snd (TistoryPublisher.update_post http clock self post_id content)
        = [request] /\
        assoc "postId" (data request) = Some post_id) /\
  (forall e,
      truthy (TistoryPublisher.api_key self) = true ->
      truthy (TistoryPublisher.blog_name self) = true ->
      (forall request, http request = HttpRaises e) ->
      fst (TistoryPublisher.update_post http clock self post_id content)
      = Ret (PublishResult.failure (Some (str e)))).
Proof.
  split.
  - intros pr. unfold TistoryPublisher.update_post.
    destruct (negb (truthy (TistoryPublisher.api_key self))
              || negb (truthy (TistoryPublisher.blog_name self)))%bool; cbn.
    { intros H F. inversion H; subst. discriminate F. }
    match goal with
    | |- context [http ?r] => set (request := r)
    end.
    destruct (http request) as [e|body] eqn:Hh.
    { intros H F. inversion H; subst. discriminate F. }
    intros H F. unfold TistoryPublisher.read_modify_response in H.
    match type of H with
    | context [match ?c with _ => _ end] => destruct c as [r|e] eqn:Hc
    end.
    2: { inversion H; subst. discriminate F. }
    inversion H; subst r. clear H.
    apply and_then_ret in Hc. destruct Hc as [t [_ Hc]].
    apply and_then_ret in Hc. destruct Hc as [status [_ Hc]].
    destruct (json_eq_str status "200").
    + repeat (apply and_then_ret in Hc; destruct Hc as [? [_ Hc]]).
      inversion Hc; subst pr. cbn. repeat split.
      exists request. split; reflexivity.
    + repeat (apply and_then_ret in Hc; destruct Hc as [? [_ Hc]]).
      inversion Hc; subst. discriminate F.
  - intros e Hk Hn Hh. unfold TistoryPublisher.update_post.
    rewrite Hk, Hn. cbn. rewrite Hh. reflexivity.
Qed.

(** An update through a connection that is refused. *)
Lemma update_post_keeps_post_id_witness :
  fst (TistoryPublisher.update_post (fun _ => connection_refused) 7
         (TistoryPublisher.init configured None None) "74" sample_content)
  = Ret (PublishResult.failure (Some "connection refused")).
Proof.
  apply (proj2 (update_post_keeps_post_id (fun _ => connection_refused) 7
                  (TistoryPublisher.init configured None None) "74"
                  sample_content)
           (RequestException "connection refused") eq_refl eq_refl).
  intros request. reflexivity.
Defined.

(* ================================================================== *)
(** * Further properties of research and retrieval *)

(** The cap of [min(1.0, x)] holds for every float, NaN included. *)
Lemma min_one_le (x : float) : PrimFloat.leb (min_one x) 1%float = true.
Proof.
  unfold min_one. destruct (PrimFloat.ltb x 1%float) eqn:E; [|reflexivity].
  rewrite leb_spec. rewrite ltb_spec in E.
  unfold SFleb, SFltb in *.
  destruct (SFcompare (Prim2SF x) (Prim2SF 1%float)) as [[| |]|];
    congruence.
Qed.

(** What the research agent builds once something was retrieved. *)
Lemma research_with_documents (C : Collaborators) (topic : TopicSpec.t) :
  let docs := retrieve_with_scores C (research_query topic) 10 in
  docs <> [] ->
  exists facts,
    ResearchAgent.research C topic
    = ResearchContext.validate
        (ResearchContext.mk
           (map (fun ds : Document * float =>
                   Source.mk (page_content (fst ds)) (metadata (fst ds))
                     (snd ds)) docs)
           facts
           (map (fun ds : Document * float => unwrap (metadata (fst ds))) docs)
           (confidence_of (map snd docs))) /\
    ((forall a b c, exists e, extract_facts C a b c = Raise e) -> facts = []).
Proof.
  intros docs Hne. unfold ResearchAgent.research.
  fold (research_query topic). fold docs.
  destruct docs as [|d rest] eqn:Hd; [congruence|].
  rewrite <- Hd. clear Hne.
  eexists. split.
  - f_equal. f_equal.
    + rewrite map_map. reflexivity.
    + unfold confidence_of, float_of_len.
      rewrite !map_map, !length_map. cbn [Source.relevance_score].
      rewrite Hd at 1. cbn [map]. reflexivity.
  - intros Hx.
    match goal with
    | |- match ?c with _ => _ end = _ =>
        destruct c eqn:Hc; [|reflexivity]
    end.
    match type of Hc with
    | extract_facts C ?a ?b ?c = _ => destruct (Hx a b c) as [e He]
    end.
    congruence.
Qed.

(** X14.  Whenever the research agent returns, its context mirrors the
    retrieval: one source and one reference per retrieved document, in
    order, with the document's text, score and source path (empty when the
    metadata has none), and a confidence within [0, 1].  With nothing
    retrieved there are no facts and the confidence is 0.0; otherwise the
    confidence is the capped average-times-count-over-five of the scores. *)
Theorem research_mirrors_retrieval (C : Collaborators) (topic : TopicSpec.t)
    (rc : ResearchContext.t) :
  ResearchAgent.research C topic = Ret rc ->
  let docs := retrieve_with_scores C (research_query topic) 10 in
  map Source.content (ResearchContext.sources rc)
  = map (fun ds => page_content (fst ds)) docs /\
  map Source.relevance_score (ResearchContext.sources rc) = map snd docs /\
  ResearchContext.references rc
  = map (fun ds => unwrap (metadata (fst ds))) docs /\
  PrimFloat.leb 0%float (ResearchContext.confidence_score rc) = true /\
  PrimFloat.leb (ResearchContext.confidence_score rc) 1%float = true /\
  (docs = [] ->
   ResearchContext.key_facts rc = [] /\
   ResearchContext.confidence_score rc = 0%float) /\
  (docs <> [] ->
   ResearchContext.confidence_score rc = confidence_of (map snd docs)).
Proof.
  intros H docs.
  assert (docs = [] \/ docs <> []) as [Hd|Hne]
    by (destruct docs; [left; reflexivity | right; discriminate]).
  - unfold ResearchAgent.research in H. fold (research_query topic) in H.
    fold docs in H. rewrite Hd in *. cbn in H. inversion H; subst rc. cbn.
    repeat split; congruence.
  - destruct (research_with_documents C topic Hne) as [facts [Hr _]].
    fold docs in Hr. rewrite Hr in H. unfold ResearchContext.validate in H.
    match type of H with
    | (if ?b then _ else _) = _ => destruct b eqn:Hv; [|discriminate]
    end.
    inversion H; subst rc.
    cbn [ResearchContext.sources ResearchContext.references
         ResearchContext.confidence_score ResearchContext.key_facts] in *.
    apply andb_prop in Hv. destruct Hv as [Hv0 Hv1].
    split; [rewrite map_map; reflexivity|].
    split; [rewrite map_map; reflexivity|].
    split; [reflexivity|].
    split; [exact Hv0|]. split; [exact Hv1|].
    split; [intros E; contradiction | reflexivity].
Qed.



(** X16.  Retrieval never fails the research stage.  When the vector store
    was never initialised, or its search raises, the RAG system retrieves
    nothing, the research agent answers with the empty context of
    confidence 0.0, and the research node of a fresh run stores it,
    recording the low confidence exactly when the threshold is above 0. *)
Theorem research_over_unavailable_store (settings : Settings)
    (rag : RAGSystem.t) (C : Collaborators) (format_2f : float -> string)
    (topic : TopicSpec.t) :
  (RAGSystem.vector_store rag = None \/
   exists store,
     RAGSystem.vector_store rag = Some store /\
     forall query k, exists e,
       RAGSystem.similarity_search_with_score store query k = Raise e) ->
  (forall query k, RAGSystem.retrieve_with_scores rag query k = []) /\
  ResearchAgent.research (with_rag rag C) topic
  = Ret (ResearchContext.mk [] [] [] 0%float) /\
  _research_node settings (with_rag rag C) format_2f (initial_state topic)
  = (Ret tt,
     set_errors
       (if PrimFloat.ltb 0%float (fact_confidence_threshold settings)
        then [("Research confidence below threshold: "
               ++ format_2f 0%float)%string]
        else [])
       (set_research_context (ResearchContext.mk [] [] [] 0%float)
          (set_current_stage "research" (initial_state topic)))).
Proof.
  intros H.
  assert (forall query k, RAGSystem.retrieve_with_scores rag query k = [])
    as Hempty.
  { intros query k. unfold RAGSystem.retrieve_with_scores.
    destruct H as [-> | [store [-> Hs]]]; [reflexivity|].
    destruct (Hs query k) as [e ->]. reflexivity. }
  assert (ResearchAgent.research (with_rag rag C) topic
          = Ret (ResearchContext.mk [] [] [] 0%float)) as Hr
    by (apply research_without_documents; exact Hempty).
  repeat split; auto.
  unfold _research_node, _research_try. unfold_py. cbn.
  rewrite Hr. cbn.
  destruct (PrimFloat.ltb 0%float (fact_confidence_threshold settings));
    reflexivity.
Qed.

(** The run of the sample topic with a critic that approves at once. *)
Lemma published_content_is_last_draft_witness :
  exists r final,
    completes default_settings unreachable_api two_decimals true
      sample_topic r /\
    result r = Ret final /\
    final_content final = Some sample_content.
Proof.
  destruct (published_content_is_last_draft default_settings unreachable_api
              two_decimals true sample_topic) as [r [final [Hr [Hres H]]]].
  assert (exists r0,
             completes default_settings unreachable_api two_decimals true
               sample_topic r0 /\
             ended (execution r0) = Ret tt /\
             (forall final0, result r0 = Ret final0 ->
                             draft_content final0 = Some sample_content))
    as [r0 [Hr0 [He0 Hd0]]].
  { eexists. split; [exists 10%nat; vm_compute; reflexivity|].
    split; [reflexivity|].
    intros final0 Hf. vm_compute in Hf. inversion Hf. reflexivity. }
  pose proof (completes_unique _ _ _ _ _ _ _ Hr0 Hr) as ->.
  exists r0, final. split; [exact Hr0|]. split; [exact Hres|].
  destruct (H He0) as [draft [Hd Hf]].
  rewrite (Hd0 _ Hres) in Hd. inversion Hd; subst draft. exact Hf.
Defined.

(** A reviewer at the terminal who answers "No". *)
Lemma publish_needs_approval_witness :
  publish_result
    (snd (_publish_node (with_manual_approval configured)
            (answering_terminal (Ret "No") unreachable_api) false optimized))
  = Some (PublishResult.failure (Some "Cancelled by user")).
Proof.
  rewrite (proj1 (publish_needs_approval (with_manual_approval configured)
                    (answering_terminal (Ret "No") unreachable_api) false
                    optimized sample_content eq_refl eq_refl)
             "No" eq_refl ltac:(discriminate)).
  reflexivity.
Defined.

(** The research of the sample topic over one document of score 2.5. *)
Lemma research_mirrors_retrieval_witness :
  ResearchContext.references
    (ResearchContext.mk [Source.mk "X is a letter" (Some "x.md") 2.5%float]
       ["X is a letter"] ["x.md"] 0.5%float)
  = ["x.md"].
Proof.
  destruct (research_mirrors_retrieval unreachable_api sample_topic
              (ResearchContext.mk
                 [Source.mk "X is a letter" (Some "x.md") 2.5%float]
                 ["X is a letter"] ["x.md"] 0.5%float) eq_refl)
    as [_ [_ [H _]]].
  exact H.
Defined.

(** A run started before the knowledge base was built. *)
Lemma research_over_unavailable_store_witness :
  ResearchAgent.research (with_rag unbuilt_rag unreachable_api) sample_topic
  = Ret (ResearchContext.mk [] [] [] 0%float).
Proof.
  apply (research_over_unavailable_store default_settings unbuilt_rag
           unreachable_api two_decimals sample_topic).
  left. reflexivity.
Defined.

(* ================================================================== *)
(** * The video pipeline's planning nodes *)

Lemma lower_ascii_idempotent (c : ascii) :
  lower_ascii (lower_ascii c) = lower_ascii c.
Proof. destruct c as [[] [] [] [] [] [] [] []]; reflexivity. Qed.

Lemma lower_idempotent (s : string) : lower (lower s) = lower s.
Proof.
  induction s as [|c s IH]; cbn; [reflexivity|].
  now rewrite lower_ascii_idempotent, IH.
Qed.

(** X17.  The topic planner always hands on a usable topic: its update
    holds a topic that is truthy and no error.  A topic that was already
    truthy is kept as it is; a missing, [None] or empty one is replaced by
    "Default AI Topic".  Planning a planned state changes nothing. *)
Theorem topic_planner_supplies_topic (state : VideoPipeline.VideoState) :
  exists t,
    VideoPipeline.topic_planner state = [("topic", t); ("error", JNull)] /\
    VideoPipeline.truth t = true /\
    (forall v, assoc "topic" state = Some v ->
               VideoPipeline.truth v = true -> t = v) /\
    (assoc "topic" state = None \/
     assoc "topic" state = Some JNull \/
     assoc "topic" state = Some (JStr "") ->
     t = JStr "Default AI Topic") /\
    VideoPipeline.topic_planner (VideoPipeline.topic_planner state)
    = VideoPipeline.topic_planner state.
Proof.
  unfold VideoPipeline.topic_planner.
  destruct (assoc "topic" state) as [v|] eqn:Hv.
  - destruct (VideoPipeline.truth v) eqn:Ht.
    + exists v. repeat split; auto.
      * intros v' E _. congruence.
      * intros [E|[E|E]]; try discriminate; inversion E; subst;
          discriminate Ht.
      * cbn. rewrite Ht. reflexivity.
    + eexists. repeat split; auto.
      intros v' E T. inversion E; subst. congruence.
  - eexists. repeat split; auto. intros v' E. discriminate.
Qed.

(** Planning a state whose topic is empty. *)
Lemma topic_planner_supplies_topic_witness :
  VideoPipeline.topic_planner untitled_state
  = [("topic", JStr "Default AI Topic"); ("error", JNull)].
Proof.
  destruct (topic_planner_supplies_topic untitled_state)
    as [t [Hp [_ [_ [Hd _]]]]].
  rewrite Hp, Hd; [reflexivity | right; right; reflexivity].
Defined.

(** X18.  The content type router decides on the lower-cased topic, so
    letter case does not matter: "both" if it contains "both", else "short"
    if it contains "trend", "promo" or "short", else "long".  It answers
    with exactly one of the three; a state with no topic gets "long"; and
    a topic that is not a string makes it raise. *)
Theorem content_type_router_rules (state : VideoPipeline.VideoState) :
  (forall s,
      assoc "topic" state = Some (JStr s) ->
      exists c,
        VideoPipeline.content_type_router state
        = Ret [("content_type", JStr c)] /\
        (c = "both" \/ c = "short" \/ c = "long") /\
        (c = "both" <-> VideoPipeline.contains "both" (lower s) = true) /\
        (c = "long" <->
         VideoPipeline.contains "both" (lower s) = false /\
         VideoPipeline.contains "trend" (lower s) = false /\
         VideoPipeline.contains "promo" (lower s) = false /\
         VideoPipeline.contains "short" (lower s) = false) /\
        VideoPipeline.content_type_router [("topic", JStr (lower s))]
        = VideoPipeline.content_type_router state) /\
  (assoc "topic" state = None ->
   VideoPipeline.content_type_router state
   = Ret [("content_type", JStr "long")]) /\
  (forall v,
      assoc "topic" state = Some v ->
      (forall s, v <> JStr s) ->
      exists e, VideoPipeline.content_type_router state = Raise e).
Proof.
  unfold VideoPipeline.content_type_router.
  split; [|split].
  - intros s Hs. rewrite Hs. cbn. rewrite lower_idempotent.
    destruct (VideoPipeline.contains "both" (lower s)) eqn:B.
    { exists "both". repeat split; auto; try discriminate.
      intros [? _]; discriminate. }
    destruct (VideoPipeline.contains "trend" (lower s)) eqn:T; cbn.
    { exists "short". repeat split; auto; try discriminate.
      intros [_ [? _]]; discriminate. }
    destruct (VideoPipeline.contains "promo" (lower s)) eqn:P; cbn.
    { exists "short". repeat split; auto; try discriminate.
      intros [_ [_ [? _]]]; discriminate. }
    destruct (VideoPipeline.contains "short" (lower s)) eqn:S; cbn.
    { exists "short". repeat split; auto; try discriminate.
      intros [_ [_ [_ ?]]]; discriminate. }
    exists "long". repeat split; auto; try discriminate.
  - intros Hs. rewrite Hs. reflexivity.
  - intros v Hv Hn. rewrite Hv.
    destruct v; cbn; eauto. exfalso. eapply Hn. reflexivity.
Qed.

(** The second example of the video pipeline's [main]. *)
Lemma content_type_router_rules_witness :
  VideoPipeline.content_type_router trends_state
  = Ret [("content_type", JStr "both")].
Proof.
  destruct (proj1 (content_type_router_rules trends_state)
              "AI Trends 2024 (Both)" eq_refl)
    as [c [Hr [_ [Hb _]]]].
  rewrite Hr. rewrite (proj2 Hb eq_refl). reflexivity.
Defined.

(** X19.  After the topic planner the router cannot trip over a missing
    topic.  On any state that carries the planner's topic, the router
    answers as on the original state when the topic was a non-empty
    string, and answers "long" when it was missing, [None] or empty (the
    default topic names no content type). *)
Theorem router_after_planner (state state' : VideoPipeline.VideoState) :
  assoc "topic" state'
  = assoc "topic" (VideoPipeline.topic_planner state) ->
  (forall s,
      assoc "topic" state = Some (JStr s) -> s <> "" ->
      VideoPipeline.content_type_router state'
      = VideoPipeline.content_type_router state) /\
  (assoc "topic" state = None \/
   assoc "topic" state = Some JNull \/
   assoc "topic" state = Some (JStr "") ->
   VideoPipeline.content_type_router state'
   = Ret [("content_type", JStr "long")]).
Proof.
  intros H. unfold VideoPipeline.content_type_router. rewrite H.
  unfold VideoPipeline.topic_planner. cbn. split.
  - intros s Hs Hne. rewrite Hs. cbn.
    destruct s; [congruence | reflexivity].
  - intros [E|[E|E]]; rewrite E; reflexivity.
Qed.

(** Planning and routing a state whose topic is empty. *)
Lemma router_after_planner_witness :
  VideoPipeline.content_type_router (VideoPipeline.topic_planner untitled_state)
  = Ret [("content_type", JStr "long")].
Proof.
  apply (router_after_planner untitled_state
           (VideoPipeline.topic_planner untitled_state) eq_refl).
  right; right; reflexivity.
Defined.

(* ================================================================== *)
(** * Reviews and answers *)

(** From any point of a walk that keeps its error list, writes and
    critiques pair up: a write is always followed by a critique. *)
Lemma walk_pairs_write_and_critique (settings : Settings) (C : Collaborators)
    (format_2f : float -> string) (dry_run : bool) step n s x :
  walk settings C format_2f dry_run step n s x ->
  errors s <> None ->
  (executions Critique x
   = executions Write x + (if node_eqb n Critique then 1 else 0))%nat.
Proof.
  induction 1 as [step n s e s1 Hn | step n s u s1 e s2 Hn He
                 | step n s u s1 s2 Hn He
                 | step n s u s1 n' s2 x Hn He Hw IH];
    intros E;
    pose proof (run_node_keeps _ _ _ _ _ _ _ _ _ Hn) as [_ [_ [KE _]]];
    try (pose proof (next_node_state _ _ _ _ _ He) as ->).
  - destruct n; try reflexivity. exfalso.
    assert (@Raise unit e = Ret tt) as Hr
      by (eapply run_node_returns;
          [exact Hn | left; discriminate | left; discriminate | exact E]).
    discriminate Hr.
  - destruct n; try reflexivity. cbn in He. inversion He.
  - pose proof (next_node_end _ _ _ _ He) as ->. reflexivity.
  - pose proof (next_node_cases _ _ _ _ _ He) as Hc.
    specialize (IH (KE E)).
    unfold executions, stages in *.
    destruct n; cbn in Hc |- *;
      repeat match goal with
             | H : _ \/ _ |- _ => destruct H
             | H : _ /\ _ |- _ => destruct H
             end; subst; try contradiction; cbn in IH |- *; lia.
Qed.


(** X21.  An answer of the API that is an object but names no status "200"
    and no error message (the ["tistory"] object may be missing altogether)
    is reported by [publish] as a failure with the message
    "Unknown error". *)
Theorem tistory_unknown_error (http : HttpRequest -> HttpOutcome) (clock : Z)
    (self : TistoryPublisher.t) (content : BlogContent.t)
    (visibility : string) (kv : list (string * json)) :
  truthy (TistoryPublisher.api_key self) = true ->
  truthy (TistoryPublisher.blog_name self) = true ->
  (forall request, http request = HttpJson (JDict kv)) ->
  (assoc "tistory" kv = None \/
   exists t,
     assoc "tistory" kv = Some (JDict t) /\
     assoc "error_message" t = None /\
     (forall status, assoc "status" t = Some status ->
                     json_eq_str status "200" = false)) ->
  fst (TistoryPublisher.publish http clock self content visibility)
  = Ret (PublishResult.failure (Some "Unknown error")).
Proof.
  intros Hk Hn Hh Hb. unfold TistoryPublisher.publish.
  rewrite Hk, Hn. cbn. rewrite Hh.
  unfold TistoryPublisher.read_write_response. cbn.
  destruct Hb as [Ht | [t [Ht [Hm Hs]]]]; rewrite Ht; cbn.
  - reflexivity.
  - destruct (assoc "status" t) as [status|] eqn:Hst.
    + rewrite (Hs status eq_refl). cbn. rewrite Hm. reflexivity.
    + cbn. rewrite Hm. reflexivity.
Qed.

(** An empty object as the answer. *)
Lemma tistory_unknown_error_witness :
  fst (TistoryPublisher.publish (fun _ => HttpJson (JDict [])) 0
         (TistoryPublisher.init configured None None) sample_content "draft")
  = Ret (PublishResult.failure (Some "Unknown error")).
Proof.
  apply (tistory_unknown_error (fun _ => HttpJson (JDict [])) 0
           (TistoryPublisher.init configured None None) sample_content
           "draft" [] eq_refl eq_refl).
  - intros request. reflexivity.
  - left. reflexivity.
Defined.
